(** * deploy_nim_sagemaker: a shallow embedding and its properties

    The script deploys two JumpStart NIM models to SageMaker endpoints and
    writes a summary of the endpoints it created.  The SageMaker SDK, the
    process environment and the file system are outside the script; they
    appear here as a [Platform] (the SDK calls and the opening and writing of a
    file, each of which may raise), a map of environment variables, a working
    directory and a store of files.

    A Python [str] is a Rocq [string], one [ascii] per character, so the model
    covers text whose code points are below 256.  The pictographs of the
    console messages lie outside that range and are written as their UTF-8
    bytes; they only occur in printed text, which no function inspects. *)

From Stdlib Require Import String Ascii List Arith Lia Bool.
From stdpp Require Import gmap strings.
Import ListNotations.
Local Open Scope string_scope.

(** ** Python string operations used by the script *)

Module PyStr.

(** [old] is a prefix of [s] ([s.startswith(old)]). *)
Fixpoint startswith (old s : string) : bool :=
  match old, s with
  | EmptyString, _ => true
  | String a old', String b s' => if Ascii.eqb a b then startswith old' s' else false
  | String _ _, EmptyString => false
  end.

(** [s.replace(old, new)] for a non-empty [old]: scan from the left, replace
    each occurrence found, and resume after it.  [skip] counts the characters
    of an occurrence that are still to be passed over. *)
Fixpoint replace_from (old new : string) (skip : nat) (s : string) : string :=
  match s with
  | EmptyString => EmptyString
  | String c s' =>
      match skip with
      | S k => replace_from old new k s'
      | O =>
          if startswith old s
          then new ++ replace_from old new (String.length old - 1) s'
          else String c (replace_from old new 0 s')
      end
  end.

Definition replace (old new s : string) : string := replace_from old new 0 s.

(** [s[:n]] for a non-negative [n]. *)
Fixpoint slice_to (n : nat) (s : string) : string :=
  match n, s with
  | O, _ => EmptyString
  | S _, EmptyString => EmptyString
  | S k, String c s' => String c (slice_to k s')
  end.

Definition nl : string := String "010" EmptyString.

(** [c * n] for a one-character string. *)
Fixpoint repeat_char (c : ascii) (n : nat) : string :=
  match n with
  | O => EmptyString
  | S k => String c (repeat_char c k)
  end.

(** [c in s] for a single character. *)
Fixpoint contains (c : ascii) (s : string) : bool :=
  match s with
  | EmptyString => false
  | String d s' => if Ascii.eqb c d then true else contains c s'
  end.

(** The characters of a string, for statements about each of them. *)
Fixpoint chars (s : string) : list ascii :=
  match s with
  | EmptyString => []
  | String c s' => c :: chars s'
  end.

Fixpoint of_chars (l : list ascii) : string :=
  match l with
  | [] => EmptyString
  | c :: l' => String c (of_chars l')
  end.

End PyStr.

(** ** Endpoint records ([EndpointInfo], lines 37-50) *)

Record EndpointInfo := {
  model_id : string;
  model_version : string;
  endpoint_name : string;
  instance_type : string;
  region : string
}.

(** The [endpoint_url] property: computed on access, never assigned. *)
Definition endpoint_url (self : EndpointInfo) : string :=
  "https://runtime.sagemaker." ++ region self ++ ".amazonaws.com/" ++
  "endpoints/" ++ endpoint_name self ++ "/invocations".

(** [endpoint.__dict__]: the instance attributes, in the order in which the
    generated [__init__] assigns them.  A property lives on the class and is
    not part of it. *)
Definition instance_dict (self : EndpointInfo) : list (string * string) :=
  [ ("model_id", model_id self);
    ("model_version", model_version self);
    ("endpoint_name", endpoint_name self);
    ("instance_type", instance_type self);
    ("region", region self) ].

(** ** Endpoint naming (lines 68-69 of [deploy_model]) *)

Definition make_endpoint_name (endpoint_prefix model_id model_version : string) : string :=
  let endpoint_name :=
    PyStr.replace "_" "-" (endpoint_prefix ++ "-" ++ model_id ++ "-" ++ model_version) in
  PyStr.slice_to 63 endpoint_name.

(** ** Exceptions and the platform

    What a call can raise is described by its class and its text ([str(e)]).
    [ClientError] is botocore's error class, [OtherException] any other
    class derived from [Exception]; [KeyboardInterrupt] stands for the
    signals of the interpreter that derive from [BaseException] only, which
    [except Exception] lets through. *)

Inductive exc_class := ClientError | OtherException | KeyboardInterrupt.

Record exc := { exc_type : exc_class; exc_text : string }.

Definition isinstance_ClientError (e : exc) : bool :=
  match exc_type e with ClientError => true | _ => false end.

Definition isinstance_Exception (e : exc) : bool :=
  match exc_type e with KeyboardInterrupt => false | _ => true end.

Inductive outcome (A : Type) :=
| Returned (a : A)
| Raised (e : exc).
Arguments Returned {A} a.
Arguments Raised {A} e.

(** The SDK and the file system, as the script sees them.  [World] is
    whatever lies outside the script (catalogue, models, endpoints, the
    directories and permissions of the file system); every SDK call takes the
    world it finds to its result and the world it leaves, also when it
    raises. *)
Class Platform := {
  World : Type;
  Session : Type;
  Specs : Type;
  Model : Type;
  Predictor : Type;
  boto_region_name : Session -> string;
  specs_model_version : Specs -> string;
  (* sagemaker.Session() *)
  sdk_Session : World -> outcome Session * World;
  (* get_model_specs(model_id=, region=) *)
  sdk_get_model_specs : string -> string -> World -> outcome Specs * World;
  (* model_uris.retrieve(model_id=, model_version=, model_scope=, region=) *)
  sdk_model_uris_retrieve :
    string -> string -> string -> string -> World -> outcome string * World;
  (* image_uris.retrieve(framework=, model_id=, model_version=, image_scope=,
     model_scope=, region=) *)
  sdk_image_uris_retrieve :
    option string -> string -> string -> string -> string -> string ->
    World -> outcome string * World;
  (* sagemaker.model.Model(image_uri=, model_data=, role=, sagemaker_session=) *)
  sdk_Model : string -> string -> string -> Session -> World -> outcome Model * World;
  (* model.deploy(initial_instance_count=, instance_type=, endpoint_name=, wait=) *)
  sdk_deploy : Model -> nat -> string -> string -> bool -> World -> outcome Predictor * World;
  (* predictor.delete_model() *)
  sdk_delete_model : Predictor -> World -> outcome unit * World;
  (* the file a path names, however the path is spelt (os.path.realpath) *)
  os_realpath : string -> World -> string;
  (* open(path, "w"): the fault it raises, if any *)
  os_open_w : string -> World -> option exc;
  (* writing the text through the handle and closing it: the fault raised, if
     any, with the number of characters that had reached the file *)
  os_write : string -> string -> World -> option (exc * nat)
}.

(** The calls made to the platform, with their arguments, in order. *)
Inductive call `{Platform} :=
| CallSession
| CallGetModelSpecs (model_id region : string)
| CallModelUris (model_id model_version model_scope region : string)
| CallImageUris (framework : option string)
    (model_id model_version image_scope model_scope region : string)
| CallModel (image_uri model_data role : string) (sagemaker_session : Session)
| CallDeploy (model : Model) (initial_instance_count : nat)
    (instance_type endpoint_name : string) (wait : bool)
| CallDeleteModel (predictor : Predictor).

(** ** Program state and the monad of the script *)

Record state `{Platform} := {
  world : World;
  calls : list call;               (* platform calls made so far *)
  stdout : list string;            (* one entry per [print] *)
  files : gmap string string       (* file, as [os_realpath] names it, to content *)
}.

Definition M `{Platform} (A : Type) : Type := state -> outcome A * state.

Definition ret `{Platform} {A} (a : A) : M A := fun s => (Returned a, s).

Definition raise `{Platform} {A} (e : exc) : M A := fun s => (Raised e, s).

Definition bind `{Platform} {A B} (m : M A) (k : A -> M B) : M B :=
  fun s =>
    match m s with
    | (Returned a, s') => k a s'
    | (Raised e, s') => (Raised e, s')
    end.

(** [try: body / except ...: handler]: the handler sees what the body raised,
    in the state the body left. *)
Definition try_except `{Platform} {A} (body : M A) (handler : exc -> M A) : M A :=
  fun s =>
    match body s with
    | (Returned a, s') => (Returned a, s')
    | (Raised e, s') => handler e s'
    end.

Declare Scope py_scope.
Delimit Scope py_scope with py.
Notation "x <- m ;; k" := (bind m (fun x => k))
  (at level 100, m at next level, right associativity) : py_scope.
Notation "m ;; k" := (bind m (fun _ => k))
  (at level 100, right associativity) : py_scope.

(** [print(line)].  The console is taken to accept every line. *)
Definition print `{Platform} (line : string) : M unit :=
  fun s =>
    (Returned tt,
     {| world := world s; calls := calls s;
        stdout := stdout s ++ [line]; files := files s |}).

(** A platform call: run it on the world and note it. *)
Definition invoke `{Platform} {A} (c : call) (f : World -> outcome A * World) : M A :=
  fun s =>
    let (r, w) := f (world s) in
    (r, {| world := w; calls := calls s ++ [c];
           stdout := stdout s; files := files s |}).

(** [with open(path, "w") as handle: json.dump(..., handle)], [text] being
    what the dump produces.  If [open] raises, nothing has changed.  Otherwise
    the file the path names is created or truncated, whatever it held; it
    ends up holding the text, or, if the writing raises, the part of the text
    that had been written. *)
Definition write_file `{Platform} (path text : string) : M unit :=
  fun s =>
    match os_open_w path (world s) with
    | Some e => (Raised e, s)
    | None =>
        let file := os_realpath path (world s) in
        match os_write path text (world s) with
        | Some (e, n) =>
            (Raised e,
             {| world := world s; calls := calls s; stdout := stdout s;
                files := <[file := PyStr.slice_to n text]> (files s) |})
        | None =>
            (Returned tt,
             {| world := world s; calls := calls s; stdout := stdout s;
                files := <[file := text]> (files s) |})
        end
    end.

(** ** [os.path.join] and [json.dump] as the script uses them *)

Module Os.

(** [os.path.join(a, b)] on a POSIX system: an absolute [b] replaces [a];
    a separator is put in unless [a] is empty or already ends with one. *)
Fixpoint ends_with_sep (a : string) : bool :=
  match a with
  | EmptyString => false
  | String c EmptyString => Ascii.eqb c "/"
  | String _ a' => ends_with_sep a'
  end.

Definition path_join (a b : string) : string :=
  if PyStr.startswith "/" b then b
  else if (String.eqb a "" || ends_with_sep a)%bool then a ++ b
  else a ++ "/" ++ b.

(** [os.getenv(key, default)] *)
Definition getenv (environ : gmap string string) (key default : string) : string :=
  match environ !! key with
  | Some v => v
  | None => default
  end.

End Os.

Module Json.

Definition quote : string := String "034" EmptyString.
Definition backslash : string := String "092" EmptyString.
Definition newline : string := PyStr.nl.

Definition hex_digit (n : nat) : ascii :=
  match n with
  | 0 => "0" | 1 => "1" | 2 => "2" | 3 => "3" | 4 => "4" | 5 => "5" | 6 => "6"
  | 7 => "7" | 8 => "8" | 9 => "9" | 10 => "a" | 11 => "b" | 12 => "c"
  | 13 => "d" | 14 => "e" | _ => "f"
  end%char.

(** The escape of one character under [ensure_ascii=True] (the default):
    the two-character escapes of the encoder's table, and a four-digit
    lower-case [\u] escape for whatever else is not in [' '..'~']. *)
Definition escape_char (c : ascii) : string :=
  let n := nat_of_ascii c in
  if Ascii.eqb c "034" then backslash ++ quote
  else if Ascii.eqb c "092" then backslash ++ backslash
  else if Ascii.eqb c "010" then backslash ++ "n"
  else if Ascii.eqb c "013" then backslash ++ "r"
  else if Ascii.eqb c "009" then backslash ++ "t"
  else if Ascii.eqb c "008" then backslash ++ "b"
  else if Ascii.eqb c "012" then backslash ++ "f"
  else if (Nat.ltb n 32 || Nat.ltb 126 n)%bool
       then backslash ++ "u00" ++
            String (hex_digit (n / 16)) (String (hex_digit (n mod 16)) EmptyString)
  else String c EmptyString.

Fixpoint escape (s : string) : string :=
  match s with
  | EmptyString => EmptyString
  | String c s' => escape_char c ++ escape s'
  end.

Definition dumps_str (s : string) : string := quote ++ escape s ++ quote.

Definition spaces (n : nat) : string := PyStr.repeat_char " " n.

(** Items one per line at [indent] spaces, separated by a comma. *)
Fixpoint dump_items (indent : nat) (items : list string) : string :=
  match items with
  | [] => EmptyString
  | [x] => spaces indent ++ x
  | x :: rest => spaces indent ++ x ++ "," ++ newline ++ dump_items indent rest
  end.

(** A dict of strings at nesting depth [depth], with [indent=2]. *)
Definition dumps_dict (depth : nat) (d : list (string * string)) : string :=
  match d with
  | [] => "{}"
  | _ =>
      "{" ++ newline ++
      dump_items (2 * (depth + 1))
        (map (fun kv => dumps_str (fst kv) ++ ": " ++ dumps_str (snd kv)) d) ++
      newline ++ spaces (2 * depth) ++ "}"
  end.

(** [json.dump(doc, handle, indent=2)] for a list of dicts of strings. *)
Definition dumps (doc : list (list (string * string))) : string :=
  match doc with
  | [] => "[]"
  | _ => "[" ++ newline ++ dump_items 2 (map (dumps_dict 1) doc) ++ newline ++ "]"
  end.

End Json.

(** ** Reading the summary back

    A reader for the JSON that the summary can hold: an array of objects
    whose values are strings.  It follows the JSON grammar, not the layout of
    [Json.dumps]: white space may stand anywhere between tokens.  It is the
    measure of what the written text says. *)

Module JsonRead.
















End JsonRead.

(** ** The script *)

Section Script.

Context `{P : Platform}.
Variable environ : gmap string string.   (* os.environ when the module is loaded *)
Variable cwd : string.                    (* os.getcwd() *)

Local Open Scope py_scope.

(** Module constants (lines 27-34). *)
Definition NEMOTRON_MODEL_ID : string := "nvidia-nemotron-nano-8b-nim".
Definition EMBED_MODEL_ID : string := "nvidia-llama3-2-nv-embedqa-1b-v2-nim".

Definition LLM_INSTANCE : string :=
  Os.getenv environ "NIM_LLM_INSTANCE_TYPE" "ml.g5.2xlarge".
Definition EMBED_INSTANCE : string :=
  Os.getenv environ "NIM_EMBED_INSTANCE_TYPE" "ml.g5.xlarge".

Definition DEFAULT_EXECUTION_ROLE : string := "arn:aws:iam::112571254920:role/voclabs".
Definition EXECUTION_ROLE : string :=
  Os.getenv environ "SAGEMAKER_EXECUTION_ROLE" DEFAULT_EXECUTION_ROLE.

(** [resolve_model_version] (lines 53-56): nothing is caught here. *)
Definition resolve_model_version (model_id region : string) : M string :=
  specs <- invoke (CallGetModelSpecs model_id region)
             (sdk_get_model_specs model_id region) ;;
  ret (specs_model_version specs).

(** [deploy_model] (lines 59-122).  The [try] block either returns the record
    or raises; a handler that matches prints and falls through to the final
    [return None]; what no handler matches goes on to the caller. *)
Definition deploy_model (sess : Session)
    (model_id model_version instance_type endpoint_prefix : string)
    : M (option EndpointInfo) :=
  let region := boto_region_name sess in
  let endpoint_name := make_endpoint_name endpoint_prefix model_id model_version in
  print (PyStr.nl ++ "📦 Deploying " ++ model_id ++ ":" ++ model_version) ;;
  print ("   Endpoint: " ++ endpoint_name) ;;
  print ("   Instance type: " ++ instance_type) ;;
  try_except
    (model_uri <- invoke (CallModelUris model_id model_version "inference" region)
                    (sdk_model_uris_retrieve model_id model_version "inference" region) ;;
     image_uri <- invoke (CallImageUris None model_id model_version
                            "inference" "inference" region)
                    (sdk_image_uris_retrieve None model_id model_version
                       "inference" "inference" region) ;;
     model <- invoke (CallModel image_uri model_uri EXECUTION_ROLE sess)
                (sdk_Model image_uri model_uri EXECUTION_ROLE sess) ;;
     predictor <- invoke (CallDeploy model 1 instance_type endpoint_name true)
                    (sdk_deploy model 1 instance_type endpoint_name true) ;;
     print ("✅ Deployed endpoint: " ++ endpoint_name) ;;
     invoke (CallDeleteModel predictor) (sdk_delete_model predictor) ;;
     ret (Some {| model_id := model_id;
                  model_version := model_version;
                  endpoint_name := endpoint_name;
                  instance_type := instance_type;
                  region := region |}))
    (fun error =>
       if isinstance_ClientError error then
         print ("❌ AWS error deploying " ++ model_id ++ ": " ++ exc_text error) ;;
         ret None
       else if isinstance_Exception error then
         print ("❌ Unexpected error deploying " ++ model_id ++ ": " ++ exc_text error) ;;
         ret None
       else raise error).

(** [for x in l: body(x)] *)
Fixpoint for_each {A} (l : list A) (body : A -> M unit) : M unit :=
  match l with
  | [] => ret tt
  | x :: l' => body x ;; for_each l' body
  end.

(** [if x: endpoints.append(x)]: an [EndpointInfo] is always true, [None]
    never. *)
Definition append_if (endpoints : list EndpointInfo) (x : option EndpointInfo)
    : list EndpointInfo :=
  match x with
  | Some e => endpoints ++ [e]
  | None => endpoints
  end.

(** [main], lines 126-164: the session, the two versions, the two
    deployments.  The value is the local list [endpoints]. *)
Definition main_deploy (session : Session) (llm_version embed_version : string)
    : M (list EndpointInfo) :=
  let endpoints := [] in
  llm_endpoint <- deploy_model session NEMOTRON_MODEL_ID llm_version
                    LLM_INSTANCE "mindbridge-llm" ;;
  let endpoints := append_if endpoints llm_endpoint in
  embed_endpoint <- deploy_model session EMBED_MODEL_ID embed_version
                      EMBED_INSTANCE "mindbridge-embed" ;;
  let endpoints := append_if endpoints embed_endpoint in
  ret endpoints.

Definition main_resolve (region : string) : M (string * string) :=
  print (PyStr.nl ++ "🔍 Resolving latest model versions from JumpStart...") ;;
  llm_version <- resolve_model_version NEMOTRON_MODEL_ID region ;;
  embed_version <- resolve_model_version EMBED_MODEL_ID region ;;
  print ("   " ++ NEMOTRON_MODEL_ID ++ " → v" ++ llm_version) ;;
  print ("   " ++ EMBED_MODEL_ID ++ " → v" ++ embed_version) ;;
  ret (llm_version, embed_version).

Definition main_endpoints : M (list EndpointInfo) :=
  session <- invoke CallSession sdk_Session ;;
  let region := boto_region_name session in
  print (PyStr.repeat_char "=" 72) ;;
  print "NVIDIA NIM Deployment for NVIDIA x AWS Hackathon" ;;
  print (PyStr.repeat_char "=" 72) ;;
  print ("Region: " ++ region) ;;
  (if negb (String.eqb EXECUTION_ROLE "")
   then print ("Execution role: " ++ EXECUTION_ROLE)
   else print "Execution role: using environment defaults (SageMaker managed)") ;;
  versions <- main_resolve region ;;
  main_deploy session (fst versions) (snd versions).

(** [main], lines 166-179: what is done with the list. *)
Definition main_summary (endpoints : list EndpointInfo) : M unit :=
  match endpoints with
  | [] => print (PyStr.nl ++ "❌ Deployment failed. Check the errors above.")
  | _ =>
      let summary_path := Os.path_join cwd "nim_endpoints.json" in
      write_file summary_path (Json.dumps (map instance_dict endpoints)) ;;
      print (PyStr.nl ++ "✅ Deployment summary written to nim_endpoints.json") ;;
      for_each endpoints (fun endpoint =>
        print (" - " ++ model_id endpoint ++ "@" ++ model_version endpoint ++ " → " ++
               endpoint_name endpoint ++ " (" ++ endpoint_url endpoint ++ ")"))
  end.

Definition main : M unit :=
  endpoints <- main_endpoints ;;
  main_summary endpoints.

(** [if __name__ == "__main__": main()]: the status with which the
    interpreter ends.  It is 0 when [main] returns; an uncaught exception
    ends it with a traceback and status 1, an interrupt with 130. *)
Definition exit_status (r : outcome unit) : nat :=
  match r with
  | Returned _ => 0
  | Raised e => if isinstance_Exception e then 1 else 130
  end.

Definition run (s : state) : nat * state :=
  let (r, s') := main s in (exit_status r, s').

(** The state in which a run starts: nothing called, nothing printed. *)
Definition initial (w : World) (fs : gmap string string) : state :=
  {| world := w; calls := []; stdout := []; files := fs |}.

End Script.

(** ** The naming rule in the words of the specification

    "Concatenate prefix-catalogModelId-version with hyphen separators,
    replace every underscore with a hyphen, then truncate to the first 63
    characters."  This is the reference against which [make_endpoint_name]
    is compared. *)

Module EndpointNamer.

Definition hyphenate_char (c : ascii) : ascii :=
  if Ascii.eqb c "_" then "-"%char else c.

Definition hyphenate (s : string) : string :=
  PyStr.of_chars (map hyphenate_char (PyStr.chars s)).

Definition first_chars (n : nat) (s : string) : string :=
  PyStr.of_chars (firstn n (PyStr.chars s)).

Definition name (prefix catalogModelId version : string) : string :=
  first_chars 63 (hyphenate (prefix ++ "-" ++ catalogModelId ++ "-" ++ version)).

End EndpointNamer.

(** ** Reading the list of platform calls *)

Section Calls.

Context `{P : Platform}.

(** A call that belongs to a deployment, as opposed to the session and the
    version look-up. *)
Definition is_deployment_call (c : call) : bool :=
  match c with
  | CallSession | CallGetModelSpecs _ _ => false
  | _ => true
  end.

(** The deployment of [model_id] was attempted: its first step was called. *)
Definition attempted (model_id : string) (s : state) : Prop :=
  exists model_version model_scope region,
    In (CallModelUris model_id model_version model_scope region) (calls s).

(** The role and instance type a call hands to the platform, if any. *)
Definition role_of (c : call) : option string :=
  match c with
  | CallModel _ _ role _ => Some role
  | _ => None
  end.

Definition instance_type_of (c : call) : option string :=
  match c with
  | CallDeploy _ _ instance_type _ _ => Some instance_type
  | _ => None
  end.

(** [s'] continues [s]: the calls of [s] and then calls that all satisfy [Q]. *)
Definition extends_calls (Q : call -> Prop) (s s' : state) : Prop :=
  exists new, calls s' = (calls s ++ new)%list /\ Forall Q new.

(** What the steps of one deployment give in a world [w], up to the first
    that raises: [inl (st, e, w')] when step [st] raised [e] and left [w'],
    [inr (predictor, w')] when all five went through.  The steps are the
    platform calls of the [try] block of [deploy_model], in its order and with
    its arguments. *)
Inductive step := ModelUriStep | ImageUriStep | ModelStep | DeployStep | DeleteModelStep.

Definition deploy_steps (role : string) (sess : Session)
    (model_id model_version instance_type endpoint_name : string) (w : World)
    : (step * exc * World) + (Predictor * World) :=
  let region := boto_region_name sess in
  match sdk_model_uris_retrieve model_id model_version "inference" region w with
  | (Raised e, w1) => inl (ModelUriStep, e, w1)
  | (Returned model_uri, w1) =>
  match sdk_image_uris_retrieve None model_id model_version
          "inference" "inference" region w1 with
  | (Raised e, w2) => inl (ImageUriStep, e, w2)
  | (Returned image_uri, w2) =>
  match sdk_Model image_uri model_uri role sess w2 with
  | (Raised e, w3) => inl (ModelStep, e, w3)
  | (Returned model, w3) =>
  match sdk_deploy model 1 instance_type endpoint_name true w3 with
  | (Raised e, w4) => inl (DeployStep, e, w4)
  | (Returned predictor, w4) =>
  match sdk_delete_model predictor w4 with
  | (Raised e, w5) => inl (DeleteModelStep, e, w5)
  | (Returned _, w5) => inr (predictor, w5)
  end end end end end.

End Calls.

(** ** A small platform to run the script on

    Its world is the list of live endpoint names.  Which call raises what is
    fixed by a [faults] table, keyed by model id (catalogue calls) or
    endpoint name (deployment calls).  Its file system names a file by its
    path with repeated separators collapsed, refuses to open anything under
    [/readonly/], and is full under [/full/], where a write stops after its
    first character. *)

Module Stub.

Record faults := {
  on_session : option exc;
  on_specs : string -> option exc;
  on_model_uri : string -> option exc;
  on_image_uri : string -> option exc;
  on_model : string -> option exc;        (* by image uri *)
  on_deploy : string -> option exc;       (* by endpoint name *)
  on_delete_model : string -> option exc  (* by endpoint name *)
}.

Definition answer {A W} (fault : option exc) (a : A) (w w' : W) : outcome A * W :=
  match fault with
  | Some e => (Raised e, w)
  | None => (Returned a, w')
  end.

Fixpoint collapse_separators (path : string) : string :=
  match path with
  | EmptyString => EmptyString
  | String c rest =>
      match rest with
      | String d _ =>
          if (Ascii.eqb c "/" && Ascii.eqb d "/")%bool
          then collapse_separators rest
          else String c (collapse_separators rest)
      | EmptyString => String c EmptyString
      end
  end.

Definition permission_denied : exc :=
  {| exc_type := OtherException; exc_text := "[Errno 13] Permission denied" |}.
Definition no_space_left : exc :=
  {| exc_type := OtherException; exc_text := "[Errno 28] No space left on device" |}.

Definition platform (f : faults) : Platform := {|
  World := list string;
  Session := string;
  Specs := string;
  Model := string * string;
  Predictor := string;
  boto_region_name := fun sess => sess;
  specs_model_version := fun specs => specs;
  sdk_Session := fun w => answer (on_session f) "us-east-1" w w;
  sdk_get_model_specs := fun model_id _ w => answer (on_specs f model_id) "1.0.0" w w;
  sdk_model_uris_retrieve := fun model_id _ _ _ w =>
    answer (on_model_uri f model_id) ("s3://models/" ++ model_id) w w;
  sdk_image_uris_retrieve := fun _ model_id _ _ _ _ w =>
    answer (on_image_uri f model_id) ("ecr/" ++ model_id) w w;
  sdk_Model := fun image_uri model_data _ _ w =>
    answer (on_model f image_uri) (image_uri, model_data) w w;
  sdk_deploy := fun _ _ _ endpoint_name _ w =>
    answer (on_deploy f endpoint_name) endpoint_name w (w ++ [endpoint_name])%list;
  sdk_delete_model := fun predictor w =>
    answer (on_delete_model f predictor) tt w w;
  os_realpath := fun path _ => collapse_separators path;
  os_open_w := fun path _ =>
    if PyStr.startswith "/readonly/" path then Some permission_denied else None;
  os_write := fun path _ _ =>
    if PyStr.startswith "/full/" path then Some (no_space_left, 1) else None
|}.

Definition never : string -> option exc := fun _ => None.

Definition always (e : exc) : string -> option exc := fun _ => Some e.

Definition only (key : string) (e : exc) : string -> option exc :=
  fun k => if String.eqb k key then Some e else None.

Definition no_faults : faults := {|
  on_session := None; on_specs := never; on_model_uri := never;
  on_image_uri := never; on_model := never; on_deploy := never;
  on_delete_model := never |}.

Definition throttled : exc := {| exc_type := ClientError; exc_text := "ThrottlingException" |}.
Definition timed_out : exc := {| exc_type := OtherException; exc_text := "timed out" |}.
Definition interrupted : exc := {| exc_type := KeyboardInterrupt; exc_text := "" |}.

Definition llm_name : string := "mindbridge-llm-nvidia-nemotron-nano-8b-nim-1.0.0".
Definition embed_name : string := "mindbridge-embed-nvidia-llama3-2-nv-embedqa-1b-v2-nim-1.0.0".

(** Every endpoint creation is refused. *)
Definition deploy_refused : faults := {|
  on_session := None; on_specs := never; on_model_uri := never;
  on_image_uri := never; on_model := never; on_deploy := always throttled;
  on_delete_model := never |}.

(** The embedding model's endpoint creation times out. *)
Definition embed_deploy_fails : faults := {|
  on_session := None; on_specs := never; on_model_uri := never;
  on_image_uri := never; on_model := never; on_deploy := only embed_name timed_out;
  on_delete_model := never |}.

(** The reasoning model has no artifact in the catalogue. *)
Definition llm_uri_fails : faults := {|
  on_session := None; on_specs := never;
  on_model_uri := only "nvidia-nemotron-nano-8b-nim" throttled;
  on_image_uri := never; on_model := never; on_deploy := never;
  on_delete_model := never |}.

(** The catalogue does not know the embedding model. *)
Definition embed_unknown : faults := {|
  on_session := None;
  on_specs := only "nvidia-llama3-2-nv-embedqa-1b-v2-nim" timed_out;
  on_model_uri := never; on_image_uri := never; on_model := never;
  on_deploy := never; on_delete_model := never |}.

(** Endpoints come up, but releasing the local model handle fails. *)
Definition cleanup_fails : faults := {|
  on_session := None; on_specs := never; on_model_uri := never;
  on_image_uri := never; on_model := never; on_deploy := never;
  on_delete_model := always timed_out |}.

(** The operator interrupts the wait for the first endpoint. *)
Definition interrupted_wait : faults := {|
  on_session := None; on_specs := never; on_model_uri := never;
  on_image_uri := never; on_model := never; on_deploy := always interrupted;
  on_delete_model := never |}.

Definition start (f : faults) (fs : gmap string string) : @state (platform f) :=
  @initial (platform f) [] fs.

End Stub.

(** ** The invocation URL in the words of the specification

    [https://runtime.<platform>.<region>.<domain>/endpoints/<name>/invocations] *)

Definition invocation_url_shape (platform region domain name : string) : string :=
  "https://runtime." ++ platform ++ "." ++ region ++ "." ++ domain ++
  "/endpoints/" ++ name ++ "/invocations".

(** The keys of the summary's objects, as the specification lists the stored
    attributes: model id, version, endpoint name, instance type, region. *)
Definition stored_attributes : list string :=
  ["model_id"; "model_version"; "endpoint_name"; "instance_type"; "region"].

(** ** Vocabulary for statements about runs *)

Section Runs.

Context `{P : Platform}.

(** Every run of [m] takes a state to one related to it by [R]. *)
Definition respects (R : state -> state -> Prop) {A} (m : M A) : Prop :=
  forall s r s', m s = (r, s') -> R s s'.

Definition same_files (s s' : state) : Prop := files s' = files s.

(** The record [deploy_model] builds on success (lines 109-115). *)
Definition endpoint_record (sess : Session)
    (model_id model_version instance_type endpoint_prefix : string) : EndpointInfo :=
  {| model_id := model_id;
     model_version := model_version;
     endpoint_name := make_endpoint_name endpoint_prefix model_id model_version;
     instance_type := instance_type;
     region := boto_region_name sess |}.

(** The calls one [deploy_model] can make, with the arguments it fixes. *)
Definition made_by_deploy_model (role : string) (sess : Session)
    (model_id model_version instance_type endpoint_prefix : string) (c : call) : Prop :=
  match c with
  | CallModelUris m v scope r =>
      m = model_id /\ v = model_version /\ scope = "inference" /\
      r = boto_region_name sess
  | CallImageUris framework m v image_scope model_scope r =>
      framework = None /\ m = model_id /\ v = model_version /\
      image_scope = "inference" /\ model_scope = "inference" /\
      r = boto_region_name sess
  | CallModel _ _ role' sess' => role' = role /\ sess' = sess
  | CallDeploy _ count instance_type' endpoint_name' wait =>
      count = 1 /\ instance_type' = instance_type /\
      endpoint_name' = make_endpoint_name endpoint_prefix model_id model_version /\
      wait = true
  | CallDeleteModel _ => True
  | CallSession | CallGetModelSpecs _ _ => False
  end.

(** The calls a run of [main] can make. *)
Definition made_by_main (environ : gmap string string) (c : call) : Prop :=
  c = CallSession
  \/ (exists region, c = CallGetModelSpecs NEMOTRON_MODEL_ID region)
  \/ (exists region, c = CallGetModelSpecs EMBED_MODEL_ID region)
  \/ (exists sess version,
        made_by_deploy_model (EXECUTION_ROLE environ) sess NEMOTRON_MODEL_ID version
          (LLM_INSTANCE environ) "mindbridge-llm" c)
  \/ (exists sess version,
        made_by_deploy_model (EXECUTION_ROLE environ) sess EMBED_MODEL_ID version
          (EMBED_INSTANCE environ) "mindbridge-embed" c).

(** One deployment, seen from the platform: some step raises an exception
    (an instance of [Exception]) and leaves [w'], or all steps go through. *)
Definition deployment_fails (role : string) (sess : Session)
    (model_id model_version instance_type endpoint_prefix : string) (w w' : World) : Prop :=
  exists st e,
    deploy_steps role sess model_id model_version instance_type
      (make_endpoint_name endpoint_prefix model_id model_version) w = inl (st, e, w')
    /\ isinstance_Exception e = true.

Definition deployment_succeeds (role : string) (sess : Session)
    (model_id model_version instance_type endpoint_prefix : string) (w w' : World) : Prop :=
  exists predictor,
    deploy_steps role sess model_id model_version instance_type
      (make_endpoint_name endpoint_prefix model_id model_version) w = inr (predictor, w').

(** Version resolution raises [e] for one of the two declared models, in the
    order in which [main] asks; [w'] is the world the failing call leaves. *)
Definition resolution_raises (region : string) (w w' : World) (e : exc) : Prop :=
  sdk_get_model_specs NEMOTRON_MODEL_ID region w = (Raised e, w')
  \/ (exists specs w1,
        sdk_get_model_specs NEMOTRON_MODEL_ID region w = (Returned specs, w1) /\
        sdk_get_model_specs EMBED_MODEL_ID region w1 = (Raised e, w')).

(** The line a handler of [deploy_model] prints for [error]. *)
Definition failure_line (model_id : string) (error : exc) : string :=
  if isinstance_ClientError error
  then "❌ AWS error deploying " ++ model_id ++ ": " ++ exc_text error
  else "❌ Unexpected error deploying " ++ model_id ++ ": " ++ exc_text error.

(** The line [main] prints when its list is empty. *)
Definition failed_line : string :=
  PyStr.nl ++ "❌ Deployment failed. Check the errors above.".

(** The lines [deploy_model] prints before its [try] block, and the line it
    prints once the endpoint is up. *)
Definition deploy_header (model_id model_version instance_type endpoint_prefix : string)
    : list string :=
  [ PyStr.nl ++ "📦 Deploying " ++ model_id ++ ":" ++ model_version;
    "   Endpoint: " ++ make_endpoint_name endpoint_prefix model_id model_version;
    "   Instance type: " ++ instance_type ].

Definition deployed_line (endpoint_name : string) : string :=
  "✅ Deployed endpoint: " ++ endpoint_name.

End Runs.

(** ** Further vocabulary: names, steps, console and summary text *)

(** The characters of the version that fit into an endpoint name, after the
    prefix, the model id and the two separators. *)
Definition version_room (endpoint_prefix model_id : string) : nat :=
  63 - (String.length endpoint_prefix + String.length model_id + 2).

(** A character [json.dump] leaves in its output: printable ASCII, or the
    line feed its indentation puts between items. *)
Definition plain_char (c : ascii) : bool :=
  let n := nat_of_ascii c in
  (Nat.eqb n 10 || (Nat.leb 32 n && Nat.leb n 126))%bool.

Definition plain_text (s : string) : bool := forallb plain_char (PyStr.chars s).

Section MoreRuns.

Context `{P : Platform}.

(** The position of a step in the [try] block of [deploy_model]. *)
Definition step_index (st : step) : nat :=
  match st with
  | ModelUriStep => 0
  | ImageUriStep => 1
  | ModelStep => 2
  | DeployStep => 3
  | DeleteModelStep => 4
  end.


(** [s'] has the console of [s] and possibly more lines. *)
Definition extends_stdout (s s' : state) : Prop :=
  exists more, stdout s' = (stdout s ++ more)%list.

(** The first lines of [main] (lines 129-136), once the session exists. *)
Definition banner (environ : gmap string string) (region : string) : list string :=
  [ PyStr.repeat_char "=" 72;
    "NVIDIA NIM Deployment for NVIDIA x AWS Hackathon";
    PyStr.repeat_char "=" 72;
    "Region: " ++ region;
    if String.eqb (EXECUTION_ROLE environ) ""
    then "Execution role: using environment defaults (SageMaker managed)"
    else "Execution role: " ++ EXECUTION_ROLE environ ].

(** The line the closing loop of [main] prints for one endpoint (lines
    176-179). *)
Definition summary_line (endpoint : EndpointInfo) : string :=
  " - " ++ model_id endpoint ++ "@" ++ model_version endpoint ++ " → " ++
  endpoint_name endpoint ++ " (" ++ endpoint_url endpoint ++ ")".

Definition written_line : string :=
  PyStr.nl ++ "✅ Deployment summary written to nim_endpoints.json".

(** The lines of the version look-up (lines 138-142). *)
Definition resolve_lines (llm_version embed_version : string) : list string :=
  [ PyStr.nl ++ "🔍 Resolving latest model versions from JumpStart...";
    "   " ++ NEMOTRON_MODEL_ID ++ " → v" ++ llm_version;
    "   " ++ EMBED_MODEL_ID ++ " → v" ++ embed_version ].

(** The endpoint name a call asks the platform to create, if any. *)
Definition endpoint_name_of (c : call) : option string :=
  match c with
  | CallDeploy _ _ _ endpoint_name _ => Some endpoint_name
  | _ => None
  end.

(** A name the platform accepts: at most 63 characters, no underscore. *)
Definition acceptable_name (name : string) : Prop :=
  String.length name <= 63 /\ PyStr.contains "_" name = false.

(** The configuration reaches the platform: in the world [w] in which the
    deployment of [model_id] starts, once the two look-ups of the deployment
    return, the log holds the construction of the model with [role], and once
    that returns a model, the creation of the endpoint for that model with
    [instance_type] and the endpoint name of this deployment. *)
Definition hands_over (role instance_type : string) (sess : Session)
    (model_id model_version endpoint_prefix : string) (w : World)
    (log : list call) : Prop :=
  forall model_uri w1 image_uri w2,
    sdk_model_uris_retrieve model_id model_version "inference"
      (boto_region_name sess) w = (Returned model_uri, w1) ->
    sdk_image_uris_retrieve None model_id model_version "inference" "inference"
      (boto_region_name sess) w1 = (Returned image_uri, w2) ->
    In (CallModel image_uri model_uri role sess) log
    /\ (forall model w3,
          sdk_Model image_uri model_uri role sess w2 = (Returned model, w3) ->
          In (CallDeploy model 1 instance_type
                (make_endpoint_name endpoint_prefix model_id model_version) true) log).

(** The call [deploy_model] makes in position [k] of its [try] block. *)
Definition deploy_call_shape (role : string) (sess : Session)
    (model_id model_version instance_type endpoint_prefix : string)
    (k : nat) (c : call) : Prop :=
  match k, c with
  | 0, CallModelUris m v scope r =>
      m = model_id /\ v = model_version /\ scope = "inference" /\
      r = boto_region_name sess
  | 1, CallImageUris framework m v image_scope model_scope r =>
      framework = None /\ m = model_id /\ v = model_version /\
      image_scope = "inference" /\ model_scope = "inference" /\
      r = boto_region_name sess
  | 2, CallModel _ _ role' sess' => role' = role /\ sess' = sess
  | 3, CallDeploy _ count instance_type' endpoint_name' wait =>
      count = 1 /\ instance_type' = instance_type /\
      endpoint_name' = make_endpoint_name endpoint_prefix model_id model_version /\
      wait = true
  | 4, CallDeleteModel _ => True
  | _, _ => False
  end.

(** A list of calls that is a beginning of the calls of one deployment: each
    call in the position it has there. *)
Definition in_deploy_sequence (role : string) (sess : Session)
    (model_id model_version instance_type endpoint_prefix : string)
    (l : list call) : Prop :=
  forall k c, nth_error l k = Some c ->
    deploy_call_shape role sess model_id model_version instance_type endpoint_prefix k c.

End MoreRuns.

(** * Properties *)

Arguments make_endpoint_name : simpl never.

(** ** Strings *)

Lemma replace_underscore (s : string) :
  PyStr.replace "_" "-" s = EndpointNamer.hyphenate s.
Proof.
  unfold PyStr.replace, EndpointNamer.hyphenate.
  induction s as [|c s IH]; [reflexivity|].
  cbn [PyStr.replace_from PyStr.startswith PyStr.chars map PyStr.of_chars String.length Nat.sub].
  unfold EndpointNamer.hyphenate_char at 1.
  rewrite (Ascii.eqb_sym "_" c).
  destruct (Ascii.eqb c "_"); cbn; now rewrite IH.
Qed.

Lemma slice_to_first_chars (n : nat) (s : string) :
  PyStr.slice_to n s = EndpointNamer.first_chars n s.
Proof.
  unfold EndpointNamer.first_chars.
  revert s; induction n as [|n IH]; intros [|c s]; cbn; try reflexivity.
  now rewrite IH.
Qed.

Lemma slice_to_length (n : nat) (s : string) :
  String.length (PyStr.slice_to n s) <= n.
Proof.
  revert s; induction n as [|n IH]; intros [|c s]; cbn; try lia.
  specialize (IH s); lia.
Qed.

Lemma slice_to_short (n : nat) (s : string) :
  String.length s <= n -> PyStr.slice_to n s = s.
Proof.
  revert s; induction n as [|n IH]; intros [|c s]; cbn; intros H;
    try reflexivity; try lia.
  rewrite IH; [reflexivity | lia].
Qed.

Lemma slice_to_contains (c : ascii) (n : nat) (s : string) :
  PyStr.contains c s = false -> PyStr.contains c (PyStr.slice_to n s) = false.
Proof.
  revert s; induction n as [|n IH]; intros [|d s]; cbn; try reflexivity.
  destruct (Ascii.eqb c d); [discriminate | apply IH].
Qed.

Lemma hyphenate_no_underscore (s : string) :
  PyStr.contains "_" (EndpointNamer.hyphenate s) = false.
Proof.
  unfold EndpointNamer.hyphenate.
  induction s as [|c s IH]; [reflexivity|].
  cbn [PyStr.chars map PyStr.of_chars PyStr.contains].
  rewrite IH. unfold EndpointNamer.hyphenate_char.
  destruct (Ascii.eqb_spec c "_") as [->|Hc]; [reflexivity|].
  destruct (Ascii.eqb_spec "_" c) as [E|_]; [now elim Hc | reflexivity].
Qed.

(** ** Endpoint names and URLs *)

(** C4. For every prefix, model id and version, the endpoint name the script
    computes is the one the specification describes (the hyphen-separated
    concatenation, every underscore replaced by a hyphen, cut to its first 63
    characters); it has at most 63 characters and no underscore. *)
Theorem make_endpoint_name_spec (endpoint_prefix model_id model_version : string) :
  make_endpoint_name endpoint_prefix model_id model_version =
    EndpointNamer.name endpoint_prefix model_id model_version
  /\ String.length (make_endpoint_name endpoint_prefix model_id model_version) <= 63
  /\ PyStr.contains "_" (make_endpoint_name endpoint_prefix model_id model_version) = false.
Proof.
  unfold make_endpoint_name, EndpointNamer.name. cbv zeta.
  rewrite replace_underscore. repeat split.
  - apply slice_to_first_chars.
  - apply slice_to_length.
  - apply slice_to_contains, hyphenate_no_underscore.
Qed.

(** Truncation only bites beyond 63 characters. *)
Lemma make_endpoint_name_short (endpoint_prefix model_id model_version : string) :
  String.length (endpoint_prefix ++ "-" ++ model_id ++ "-" ++ model_version) <= 63 ->
  make_endpoint_name endpoint_prefix model_id model_version
  = EndpointNamer.hyphenate (endpoint_prefix ++ "-" ++ model_id ++ "-" ++ model_version).
Proof.
  intros H. unfold make_endpoint_name. cbv zeta. rewrite replace_underscore.
  apply slice_to_short.
  enough (E : forall s, String.length (EndpointNamer.hyphenate s) = String.length s)
    by now rewrite E.
  unfold EndpointNamer.hyphenate.
  induction s as [|c s IH]; cbn; [reflexivity | now rewrite IH].
Qed.

Example make_endpoint_name_underscores :
  make_endpoint_name "mindbridge_llm" "nvidia_nemotron" "1.0_rc" =
  "mindbridge-llm-nvidia-nemotron-1.0-rc".
Proof. reflexivity. Qed.

Example make_endpoint_name_truncates :
  make_endpoint_name "mindbridge-embed" "nvidia-llama3-2-nv-embedqa-1b-v2-nim" "2024.11.05" =
  "mindbridge-embed-nvidia-llama3-2-nv-embedqa-1b-v2-nim-2024.11.0".
Proof. reflexivity. Qed.

Lemma endpoint_url_stored_nowhere (r : EndpointInfo) :
  ~ In "endpoint_url" (map fst (instance_dict r)).
Proof.
  cbn. intros H. repeat (destruct H as [H|H]; [discriminate H|]). exact H.
Qed.

(** C8. The endpoint URL of a record is computed from its region and its
    endpoint name alone, as
    [https://runtime.sagemaker.<region>.amazonaws.com/endpoints/<name>/invocations],
    and it is not among the attributes the record stores. *)
Theorem endpoint_url_shape (r : EndpointInfo) :
  endpoint_url r =
    invocation_url_shape "sagemaker" (region r) "amazonaws.com" (endpoint_name r)
  /\ ~ In "endpoint_url" (map fst (instance_dict r))
  /\ map fst (instance_dict r) = stored_attributes.
Proof.
  repeat split. apply endpoint_url_stored_nowhere.
Qed.

(** ** One deployment *)

Section DeployModel.

Context `{P : Platform}.
Variable environ : gmap string string.

Ltac run_sdk :=
  repeat match goal with
    | |- context [sdk_model_uris_retrieve ?x1 ?x2 ?x3 ?x4 ?x0] =>
        destruct (sdk_model_uris_retrieve x1 x2 x3 x4 x0) as [[?uri|?e] ?w]; cbn
    | |- context [sdk_image_uris_retrieve ?x1 ?x2 ?x3 ?x4 ?x5 ?x6 ?x0] =>
        destruct (sdk_image_uris_retrieve x1 x2 x3 x4 x5 x6 x0) as [[?img|?e] ?w]; cbn
    | |- context [sdk_Model ?x1 ?x2 ?x3 ?x4 ?x0] =>
        destruct (sdk_Model x1 x2 x3 x4 x0) as [[?m|?e] ?w]; cbn
    | |- context [sdk_deploy ?x1 ?x2 ?x3 ?x4 ?x5 ?x0] =>
        destruct (sdk_deploy x1 x2 x3 x4 x5 x0) as [[?p|?e] ?w]; cbn
    | |- context [sdk_delete_model ?x1 ?x0] =>
        destruct (sdk_delete_model x1 x0) as [[[]|?e] ?w]; cbn
    end.

Ltac by_class :=
  match goal with
  | e : exc |- _ =>
      unfold failure_line, isinstance_ClientError, isinstance_Exception;
      destruct e as [[| |] ?text]; cbn
  end.

(** What [deploy_model] returns, prints and leaves, read off the steps of
    the platform. *)
Lemma deploy_model_run (sess : Session)
    (model_id model_version instance_type endpoint_prefix : string) (s : state) :
  let name := make_endpoint_name endpoint_prefix model_id model_version in
  let lines := deploy_header model_id model_version instance_type endpoint_prefix in
  exists s',
    snd (deploy_model environ sess model_id model_version instance_type endpoint_prefix s) = s'
    /\ files s' = files s
    /\ match deploy_steps (EXECUTION_ROLE environ) sess model_id model_version
               instance_type name (world s) with
       | inr (_, w') =>
           fst (deploy_model environ sess model_id model_version instance_type
                  endpoint_prefix s)
             = Returned (Some (endpoint_record sess model_id model_version
                                 instance_type endpoint_prefix))
           /\ world s' = w'
           /\ stdout s' = (stdout s ++ lines ++ [deployed_line name])%list
       | inl (st, e, w') =>
           fst (deploy_model environ sess model_id model_version instance_type
                  endpoint_prefix s)
             = (if isinstance_Exception e then Returned None else Raised e)
           /\ world s' = w'
           /\ stdout s' =
                (stdout s ++ lines ++
                 (match st with
                  | DeleteModelStep => [deployed_line name]
                  | _ => []
                  end) ++
                 (if isinstance_Exception e then [failure_line model_id e] else []))%list
       end.
Proof.
  intros name lines; subst name lines. eexists; split; [reflexivity|].
  unfold deploy_model, deploy_steps, bind, try_except, invoke, print, ret, raise.
  cbn. run_sdk;
    repeat by_class;
    repeat split; unfold deploy_header, deployed_line;
    rewrite <- ?app_assoc; reflexivity.
Qed.

(** Whatever happens afterwards, [deploy_model] begins by asking for the
    model artifact. *)
Lemma deploy_model_first_call (sess : Session)
    (model_id model_version instance_type endpoint_prefix : string) (s : state) :
  exists rest,
    calls (snd (deploy_model environ sess model_id model_version instance_type
                  endpoint_prefix s))
    = (calls s ++
       CallModelUris model_id model_version "inference" (boto_region_name sess)
       :: rest)%list.
Proof.
  unfold deploy_model, bind, try_except, invoke, print, ret, raise.
  cbn. run_sdk; repeat by_class;
    eexists; rewrite <- ?app_assoc; cbn [app]; reflexivity.
Qed.

End DeployModel.

(** ** Relations that every run respects

    A reflexive and transitive relation on states that [print] respects, and
    that a platform call respects whenever the call satisfies [Q], is
    respected by [deploy_model] and by the deploying part of [main], provided
    [Q] holds of the calls they can make. *)

Section Respects.

Context `{P : Platform}.
Variable R : state -> state -> Prop.
Variable Q : call -> Prop.
Hypothesis R_refl : forall s, R s s.
Hypothesis R_trans : forall s1 s2 s3, R s1 s2 -> R s2 s3 -> R s1 s3.
Hypothesis R_print : forall line, respects R (print line).
Hypothesis R_invoke :
  forall A c (f : World -> outcome A * World), Q c -> respects R (@invoke P A c f).

Lemma respects_ret {A} (a : A) : respects R (ret a).
Proof. intros s r s' H. injection H as _ <-. apply R_refl. Qed.

Lemma respects_raise {A} (e : exc) : respects R (@raise P A e).
Proof. intros s r s' H. injection H as _ <-. apply R_refl. Qed.

Lemma respects_bind {A B} (m : M A) (k : A -> M B) :
  respects R m -> (forall a, respects R (k a)) -> respects R (bind m k).
Proof.
  intros Hm Hk s r s'. unfold bind.
  destruct (m s) as [[a|e] s1] eqn:E; intros H.
  - eapply R_trans; [eapply Hm, E | eapply Hk, H].
  - injection H as _ <-. eapply Hm, E.
Qed.

Lemma respects_try_except {A} (body : M A) (handler : exc -> M A) :
  respects R body -> (forall e, respects R (handler e)) ->
  respects R (try_except body handler).
Proof.
  intros Hm Hk s r s'. unfold try_except.
  destruct (body s) as [[a|e] s1] eqn:E; intros H.
  - injection H as _ <-. eapply Hm, E.
  - eapply R_trans; [eapply Hm, E | eapply Hk, H].
Qed.

Lemma respects_for_each {A} (l : list A) (body : A -> M unit) :
  (forall x, respects R (body x)) -> respects R (for_each l body).
Proof.
  intros Hb. induction l as [|x l IH]; cbn [for_each].
  - apply respects_ret.
  - apply respects_bind; [apply Hb | intros _; apply IH].
Qed.

Ltac respect :=
  repeat match goal with
    | |- respects _ (ret _) => apply respects_ret
    | |- respects _ (raise _) => apply respects_raise
    | |- respects _ (print _) => apply R_print
    | |- respects _ (bind _ _) => apply respects_bind; [| intros ?]
    | |- respects _ (try_except _ _) => apply respects_try_except; [| intros ?]
    | |- respects _ (if ?b then _ else _) => destruct b
    end.

Lemma respects_resolve_model_version (model_id region : string) :
  Q (CallGetModelSpecs model_id region) ->
  respects R (resolve_model_version model_id region).
Proof. intros HQ. unfold resolve_model_version. respect. now apply R_invoke. Qed.

Lemma respects_deploy_model (environ : gmap string string) (sess : Session)
    (model_id model_version instance_type endpoint_prefix : string) :
  (forall c, made_by_deploy_model (EXECUTION_ROLE environ) sess model_id model_version
               instance_type endpoint_prefix c -> Q c) ->
  respects R (deploy_model environ sess model_id model_version instance_type
                endpoint_prefix).
Proof.
  intros HQ. unfold deploy_model. respect; apply R_invoke, HQ; cbn; repeat split.
Qed.

Lemma respects_main_deploy (environ : gmap string string) (session : Session)
    (llm_version embed_version : string) :
  (forall c, made_by_main environ c -> Q c) ->
  respects R (main_deploy environ session llm_version embed_version).
Proof.
  intros HQ. unfold main_deploy. respect.
  - apply respects_deploy_model. intros c Hc. apply HQ.
    right; right; right; left. eauto.
  - apply respects_deploy_model. intros c Hc. apply HQ.
    right; right; right; right. eauto.
Qed.

Lemma respects_main_endpoints (environ : gmap string string) :
  (forall c, made_by_main environ c -> Q c) ->
  respects R (main_endpoints environ).
Proof.
  intros HQ. unfold main_endpoints, main_resolve. respect.
  - apply R_invoke, HQ. now left.
  - apply respects_resolve_model_version, HQ. right; left; eauto.
  - apply respects_resolve_model_version, HQ. right; right; left; eauto.
  - now apply respects_main_deploy.
Qed.

End Respects.

Section Frames.

Context `{P : Platform}.

Lemma extends_calls_refl (Q : call -> Prop) (s : state) : extends_calls Q s s.
Proof. exists []. split; [now rewrite app_nil_r | constructor]. Qed.

Lemma extends_calls_trans (Q : call -> Prop) (s1 s2 s3 : state) :
  extends_calls Q s1 s2 -> extends_calls Q s2 s3 -> extends_calls Q s1 s3.
Proof.
  intros (n1 & E1 & F1) (n2 & E2 & F2). exists (n1 ++ n2)%list. split.
  - now rewrite E2, E1, app_assoc.
  - apply Forall_app; now split.
Qed.

Lemma extends_calls_print (Q : call -> Prop) (line : string) :
  respects (extends_calls Q) (print line).
Proof. intros s r s' H. injection H as _ <-. exists []. cbn. split; [now rewrite app_nil_r | constructor]. Qed.

Lemma extends_calls_invoke (Q : call -> Prop) A c (f : World -> outcome A * World) :
  Q c -> respects (extends_calls Q) (invoke c f).
Proof.
  intros HQ s r s'. unfold invoke. destruct (f (world s)) as [r0 w].
  intros H. injection H as _ <-. exists [c]. cbn. split; [reflexivity | now constructor].
Qed.

Lemma same_files_print (line : string) : respects same_files (print line).
Proof. intros s r s' H. now injection H as _ <-. Qed.

Lemma same_files_invoke A c (f : World -> outcome A * World) :
  respects same_files (invoke c f).
Proof.
  intros s r s'. unfold invoke. destruct (f (world s)) as [r0 w].
  intros H. now injection H as _ <-.
Qed.

(** Every platform call of the deploying part of [main] is one [made_by_main]
    describes. *)
Lemma main_endpoints_calls (environ : gmap string string) :
  respects (extends_calls (made_by_main environ)) (main_endpoints environ).
Proof.
  apply respects_main_endpoints with (Q := made_by_main environ); auto.
  - apply extends_calls_refl.
  - apply extends_calls_trans.
  - apply extends_calls_print.
  - intros. now apply extends_calls_invoke.
Qed.

(** Nothing before the summary touches a file. *)
Lemma main_endpoints_files (environ : gmap string string) :
  respects same_files (main_endpoints environ).
Proof.
  apply respects_main_endpoints with (Q := fun _ => True); auto.
  - intros s. reflexivity.
  - intros s1 s2 s3 H1 H2. unfold same_files in *. congruence.
  - apply same_files_print.
  - intros. apply same_files_invoke.
Qed.

End Frames.

(** ** Consequences for one deployment *)

Section DeployModelFacts.

Context `{P : Platform}.
Variable environ : gmap string string.

Lemma deploy_model_fails (sess : Session)
    (model_id model_version instance_type endpoint_prefix : string)
    (s : state) (w' : World) :
  deployment_fails (EXECUTION_ROLE environ) sess model_id model_version instance_type
    endpoint_prefix (world s) w' ->
  exists s',
    deploy_model environ sess model_id model_version instance_type endpoint_prefix s
      = (Returned None, s')
    /\ world s' = w' /\ files s' = files s.
Proof.
  intros (st & e & Hsteps & He).
  destruct (deploy_model_run environ sess model_id model_version instance_type
              endpoint_prefix s) as (s' & Hs & Hf & Hr).
  cbv zeta in Hr. rewrite Hsteps, He in Hr. destruct Hr as (Hr & Hw & _).
  exists s'. repeat split; auto.
  rewrite <- Hr, <- Hs. apply surjective_pairing.
Qed.

Lemma deploy_model_succeeds (sess : Session)
    (model_id model_version instance_type endpoint_prefix : string)
    (s : state) (w' : World) :
  deployment_succeeds (EXECUTION_ROLE environ) sess model_id model_version instance_type
    endpoint_prefix (world s) w' ->
  exists s',
    deploy_model environ sess model_id model_version instance_type endpoint_prefix s
      = (Returned (Some (endpoint_record sess model_id model_version instance_type
                           endpoint_prefix)), s')
    /\ world s' = w' /\ files s' = files s.
Proof.
  intros (p & Hsteps).
  destruct (deploy_model_run environ sess model_id model_version instance_type
              endpoint_prefix s) as (s' & Hs & Hf & Hr).
  cbv zeta in Hr. rewrite Hsteps in Hr. destruct Hr as (Hr & Hw & _).
  exists s'. repeat split; auto.
  rewrite <- Hr, <- Hs. apply surjective_pairing.
Qed.

(** A record that [deploy_model] returns is the one of lines 109-115. *)
Lemma deploy_model_record (sess : Session)
    (model_id model_version instance_type endpoint_prefix : string)
    (s s' : state) (r : EndpointInfo) :
  deploy_model environ sess model_id model_version instance_type endpoint_prefix s
    = (Returned (Some r), s') ->
  r = endpoint_record sess model_id model_version instance_type endpoint_prefix.
Proof.
  intros H.
  destruct (deploy_model_run environ sess model_id model_version instance_type
              endpoint_prefix s) as (s1 & _ & _ & Hr).
  cbv zeta in Hr. rewrite H in Hr. cbn [fst] in Hr.
  destruct (deploy_steps _ _ _ _ _ _ _) as [[[st e] w]|[p w]].
  - destruct Hr as (Hr & _). destruct (isinstance_Exception e); discriminate Hr.
  - destruct Hr as (Hr & _). now injection Hr.
Qed.

Lemma deploy_model_attempted (sess : Session)
    (model_id model_version instance_type endpoint_prefix : string)
    (s s' : state) (r : outcome (option EndpointInfo)) :
  deploy_model environ sess model_id model_version instance_type endpoint_prefix s
    = (r, s') ->
  attempted model_id s'.
Proof.
  intros H.
  destruct (deploy_model_first_call environ sess model_id model_version instance_type
              endpoint_prefix s) as (rest & Hc).
  rewrite H in Hc. cbn [snd] in Hc.
  exists model_version, "inference", (boto_region_name sess).
  rewrite Hc. apply in_or_app. right. now left.
Qed.

Lemma attempted_later (model_id : string) (s s' : state) (new : list call) :
  attempted model_id s -> calls s' = (calls s ++ new)%list -> attempted model_id s'.
Proof.
  intros (v & sc & r & Hin) E. exists v, sc, r. rewrite E.
  apply in_or_app. now left.
Qed.

End DeployModelFacts.

(** ** Faults of the platform during a deployment *)

(** C1. Whatever the arguments and the state, if a step of the deployment
    (artifact URI, image URI, model construction, endpoint creation, and also
    the release of the model handle) raises an exception, [deploy_model]
    catches it: it returns [None], after printing a line with the model id
    and the text of the error, and raises nothing. *)
Theorem deploy_model_catches `{P : Platform} (environ : gmap string string)
    (sess : Session) (model_id model_version instance_type endpoint_prefix : string)
    (s : state) (st : step) (e : exc) (w' : World) :
  deploy_steps (EXECUTION_ROLE environ) sess model_id model_version instance_type
    (make_endpoint_name endpoint_prefix model_id model_version) (world s)
    = inl (st, e, w') ->
  isinstance_Exception e = true ->
  exists s',
    deploy_model environ sess model_id model_version instance_type endpoint_prefix s
      = (Returned None, s')
    /\ world s' = w'
    /\ List.last (stdout s') "" = failure_line model_id e.
Proof.
  intros Hsteps He.
  destruct (deploy_model_run environ sess model_id model_version instance_type
              endpoint_prefix s) as (s' & Hs & Hf & Hr).
  cbv zeta in Hr. rewrite Hsteps, He in Hr. destruct Hr as (Hr & Hw & Hout).
  exists s'. repeat split; auto.
  - rewrite <- Hr, <- Hs. apply surjective_pairing.
  - rewrite Hout, !app_assoc. apply List.last_last.
Qed.

Lemma deploy_model_catches_witness :
  exists s',
    @deploy_model (Stub.platform Stub.deploy_refused) ∅ "us-east-1"
      "nvidia-nemotron-nano-8b-nim" "1.0.0" "ml.g5.2xlarge" "mindbridge-llm"
      (Stub.start Stub.deploy_refused ∅)
      = (Returned None, s')
    /\ world s' = []
    /\ List.last (stdout s') "" =
         "❌ AWS error deploying nvidia-nemotron-nano-8b-nim: ThrottlingException".
Proof.
  apply (@deploy_model_catches (Stub.platform Stub.deploy_refused) ∅ "us-east-1"
           "nvidia-nemotron-nano-8b-nim" "1.0.0" "ml.g5.2xlarge" "mindbridge-llm"
           (Stub.start Stub.deploy_refused ∅) DeployStep Stub.throttled []);
    reflexivity.
Defined.

(** What [except Exception] does not catch goes on to the caller. *)
Lemma deploy_model_lets_interrupt_through :
  fst (@deploy_model (Stub.platform Stub.interrupted_wait) ∅ "us-east-1"
         "nvidia-nemotron-nano-8b-nim" "1.0.0" "ml.g5.2xlarge" "mindbridge-llm"
         (Stub.start Stub.interrupted_wait ∅))
  = Raised Stub.interrupted.
Proof. reflexivity. Qed.

(** C10. If the endpoint has come up ([model.deploy] returned) and the release
    of the local model handle then raises an exception, [deploy_model] returns
    [None] and no record: the calls made include the successful endpoint
    creation, the console shows the endpoint as deployed and then the error,
    and the world is the one the platform was left in. *)
Theorem cleanup_fault_drops_live_endpoint `{P : Platform} (environ : gmap string string)
    (sess : Session) (model_id model_version instance_type endpoint_prefix : string)
    (s : state) (model_uri image_uri : string) (model : Model) (predictor : Predictor)
    (e : exc) (w1 w2 w3 w4 w5 : World) :
  sdk_model_uris_retrieve model_id model_version "inference" (boto_region_name sess)
    (world s) = (Returned model_uri, w1) ->
  sdk_image_uris_retrieve None model_id model_version "inference" "inference"
    (boto_region_name sess) w1 = (Returned image_uri, w2) ->
  sdk_Model image_uri model_uri (EXECUTION_ROLE environ) sess w2 = (Returned model, w3) ->
  sdk_deploy model 1 instance_type
    (make_endpoint_name endpoint_prefix model_id model_version) true w3
    = (Returned predictor, w4) ->
  sdk_delete_model predictor w4 = (Raised e, w5) ->
  isinstance_Exception e = true ->
  deploy_model environ sess model_id model_version instance_type endpoint_prefix s
  = (Returned None,
     {| world := w5;
        calls :=
          (calls s ++
           [ CallModelUris model_id model_version "inference" (boto_region_name sess);
             CallImageUris None model_id model_version "inference" "inference"
               (boto_region_name sess);
             CallModel image_uri model_uri (EXECUTION_ROLE environ) sess;
             CallDeploy model 1 instance_type
               (make_endpoint_name endpoint_prefix model_id model_version) true;
             CallDeleteModel predictor ])%list;
        stdout :=
          (stdout s ++
           deploy_header model_id model_version instance_type endpoint_prefix ++
           [ deployed_line (make_endpoint_name endpoint_prefix model_id model_version);
             failure_line model_id e ])%list;
        files := files s |}).
Proof.
  intros H1 H2 H3 H4 H5 He.
  unfold deploy_model, bind, try_except, invoke, print, ret, raise. cbn.
  rewrite H1; cbn. rewrite H2; cbn. rewrite H3; cbn. rewrite H4; cbn.
  rewrite H5; cbn.
  unfold failure_line, deploy_header, deployed_line.
  unfold isinstance_Exception in He. unfold isinstance_ClientError, isinstance_Exception.
  destruct e as [[| |] text]; cbn in *; try discriminate He;
    rewrite <- ?app_assoc; reflexivity.
Qed.

Lemma cleanup_fault_drops_live_endpoint_witness :
  let r := @deploy_model (Stub.platform Stub.cleanup_fails) ∅ "us-east-1"
             "nvidia-nemotron-nano-8b-nim" "1.0.0" "ml.g5.2xlarge" "mindbridge-llm"
             (Stub.start Stub.cleanup_fails ∅) in
  fst r = Returned None /\ world (snd r) = [Stub.llm_name].
Proof.
  cbv zeta.
  rewrite (@cleanup_fault_drops_live_endpoint (Stub.platform Stub.cleanup_fails) ∅
             "us-east-1" "nvidia-nemotron-nano-8b-nim" "1.0.0" "ml.g5.2xlarge"
             "mindbridge-llm" (Stub.start Stub.cleanup_fails ∅)
             "s3://models/nvidia-nemotron-nano-8b-nim"
             "ecr/nvidia-nemotron-nano-8b-nim"
             ("ecr/nvidia-nemotron-nano-8b-nim", "s3://models/nvidia-nemotron-nano-8b-nim")
             Stub.llm_name Stub.timed_out [] [] [] [Stub.llm_name] [Stub.llm_name]);
    try reflexivity.
  split; reflexivity.
Defined.

(** The same fault in a whole run: both endpoints are live on the platform,
    the result list is empty, no summary is written, the status is 0. *)
Example live_endpoints_absent_from_summary :
  let s0 := Stub.start Stub.cleanup_fails ∅ in
  fst (@main_endpoints (Stub.platform Stub.cleanup_fails) ∅ s0) = Returned []
  /\ world (snd (@run (Stub.platform Stub.cleanup_fails) ∅ "/work" s0))
     = [Stub.llm_name; Stub.embed_name]
  /\ files (snd (@run (Stub.platform Stub.cleanup_fails) ∅ "/work" s0)) = ∅
  /\ fst (@run (Stub.platform Stub.cleanup_fails) ∅ "/work" s0) = 0.
Proof. vm_compute. repeat split. Qed.

(** C5. The endpoint name is fixed by prefix, model id and version: two
    deployments with the same three values, on any two platforms, in any
    states, with any sessions, instance types and environments, return
    records with the same endpoint name, the one [make_endpoint_name] gives. *)
Theorem endpoint_name_deterministic (P1 P2 : Platform)
    (environ1 environ2 : gmap string string)
    (sess1 : @Session P1) (sess2 : @Session P2)
    (instance_type1 instance_type2 endpoint_prefix model_id model_version : string)
    (s1 s1' : @state P1) (s2 s2' : @state P2) (r1 r2 : EndpointInfo) :
  @deploy_model P1 environ1 sess1 model_id model_version instance_type1
    endpoint_prefix s1 = (Returned (Some r1), s1') ->
  @deploy_model P2 environ2 sess2 model_id model_version instance_type2
    endpoint_prefix s2 = (Returned (Some r2), s2') ->
  endpoint_name r1 = endpoint_name r2
  /\ endpoint_name r1 = make_endpoint_name endpoint_prefix model_id model_version.
Proof.
  intros H1 H2.
  apply deploy_model_record in H1. apply deploy_model_record in H2.
  subst r1 r2. split; reflexivity.
Qed.

Lemma endpoint_name_deterministic_witness :
  endpoint_name
    (endpoint_record (P := Stub.platform Stub.no_faults) "us-east-1"
       "nvidia-llama3-2-nv-embedqa-1b-v2-nim" "1.0.0" "ml.g5.xlarge" "mindbridge-embed")
  = endpoint_name
      (endpoint_record (P := Stub.platform Stub.llm_uri_fails) "eu-west-1"
         "nvidia-llama3-2-nv-embedqa-1b-v2-nim" "1.0.0" "ml.g5.4xlarge" "mindbridge-embed")
  /\ endpoint_name
       (endpoint_record (P := Stub.platform Stub.no_faults) "us-east-1"
          "nvidia-llama3-2-nv-embedqa-1b-v2-nim" "1.0.0" "ml.g5.xlarge" "mindbridge-embed")
     = Stub.embed_name.
Proof.
  refine (endpoint_name_deterministic
            (Stub.platform Stub.no_faults) (Stub.platform Stub.llm_uri_fails)
            ∅ {["SAGEMAKER_EXECUTION_ROLE" := "arn:aws:iam::1:role/other"]}
            "us-east-1" "eu-west-1" "ml.g5.xlarge" "ml.g5.4xlarge"
            "mindbridge-embed" "nvidia-llama3-2-nv-embedqa-1b-v2-nim" "1.0.0"
            (Stub.start Stub.no_faults ∅) _
            (Stub.start Stub.llm_uri_fails ∅) _ _ _ _ _);
    vm_compute; reflexivity.
Defined.

(** ** The two deployments of [main] *)

(** C2. If the deployment of exactly one of the two models fails, [main] has
    attempted both deployments and its result list holds exactly one record,
    that of the model whose deployment went through. *)
Theorem one_failure_keeps_the_other `{P : Platform} (environ : gmap string string)
    (session : Session) (llm_version embed_version : string)
    (s : state) (w1 w2 : World) (survivor : EndpointInfo) :
  (deployment_fails (EXECUTION_ROLE environ) session NEMOTRON_MODEL_ID llm_version
     (LLM_INSTANCE environ) "mindbridge-llm" (world s) w1
   /\ deployment_succeeds (EXECUTION_ROLE environ) session EMBED_MODEL_ID embed_version
        (EMBED_INSTANCE environ) "mindbridge-embed" w1 w2
   /\ survivor = endpoint_record session EMBED_MODEL_ID embed_version
                   (EMBED_INSTANCE environ) "mindbridge-embed")
  \/ (deployment_succeeds (EXECUTION_ROLE environ) session NEMOTRON_MODEL_ID llm_version
        (LLM_INSTANCE environ) "mindbridge-llm" (world s) w1
      /\ deployment_fails (EXECUTION_ROLE environ) session EMBED_MODEL_ID embed_version
           (EMBED_INSTANCE environ) "mindbridge-embed" w1 w2
      /\ survivor = endpoint_record session NEMOTRON_MODEL_ID llm_version
                      (LLM_INSTANCE environ) "mindbridge-llm") ->
  exists s',
    main_deploy environ session llm_version embed_version s = (Returned [survivor], s')
    /\ world s' = w2
    /\ attempted NEMOTRON_MODEL_ID s'
    /\ attempted EMBED_MODEL_ID s'.
Proof.
  intros [(H1 & H2 & ->) | (H1 & H2 & ->)].
  - apply deploy_model_fails in H1 as (s1 & E1 & Hw1 & _).
    rewrite <- Hw1 in H2.
    apply deploy_model_succeeds in H2 as (s2 & E2 & Hw2 & _).
    exists s2. unfold main_deploy, bind. rewrite E1, E2. cbn.
    repeat split; auto.
    + destruct (deploy_model_first_call environ session EMBED_MODEL_ID embed_version
                  (EMBED_INSTANCE environ) "mindbridge-embed" s1) as (rest & Hc).
      rewrite E2 in Hc. cbn [snd] in Hc.
      eapply attempted_later; [eapply deploy_model_attempted, E1 | exact Hc].
    + eapply deploy_model_attempted, E2.
  - apply deploy_model_succeeds in H1 as (s1 & E1 & Hw1 & _).
    rewrite <- Hw1 in H2.
    apply deploy_model_fails in H2 as (s2 & E2 & Hw2 & _).
    exists s2. unfold main_deploy, bind. rewrite E1, E2. cbn.
    repeat split; auto.
    + destruct (deploy_model_first_call environ session EMBED_MODEL_ID embed_version
                  (EMBED_INSTANCE environ) "mindbridge-embed" s1) as (rest & Hc).
      rewrite E2 in Hc. cbn [snd] in Hc.
      eapply attempted_later; [eapply deploy_model_attempted, E1 | exact Hc].
    + eapply deploy_model_attempted, E2.
Qed.

Lemma one_failure_keeps_the_other_witness :
  fst (@main_deploy (Stub.platform Stub.embed_deploy_fails) ∅ "us-east-1" "1.0.0" "1.0.0"
         (Stub.start Stub.embed_deploy_fails ∅))
  = Returned
      [endpoint_record (P := Stub.platform Stub.embed_deploy_fails) "us-east-1"
         "nvidia-nemotron-nano-8b-nim" "1.0.0" "ml.g5.2xlarge" "mindbridge-llm"].
Proof.
  destruct (@one_failure_keeps_the_other (Stub.platform Stub.embed_deploy_fails) ∅
              "us-east-1" "1.0.0" "1.0.0" (Stub.start Stub.embed_deploy_fails ∅)
              [Stub.llm_name] [Stub.llm_name]
              (endpoint_record (P := Stub.platform Stub.embed_deploy_fails) "us-east-1"
                 "nvidia-nemotron-nano-8b-nim" "1.0.0" "ml.g5.2xlarge" "mindbridge-llm"))
    as (s' & Hm & _).
  - right. split; [|split].
    + exists Stub.llm_name. vm_compute. reflexivity.
    + exists DeployStep, Stub.timed_out. split; vm_compute; reflexivity.
    + reflexivity.
  - now rewrite Hm.
Defined.

(** The other way round: the reasoning model fails, the embedding model's
    record is the only one; with no failure the reasoning model comes first. *)
Example embed_survives :
  fst (@main_deploy (Stub.platform Stub.llm_uri_fails) ∅ "us-east-1" "1.0.0" "1.0.0"
         (Stub.start Stub.llm_uri_fails ∅))
  = Returned
      [endpoint_record (P := Stub.platform Stub.llm_uri_fails) "us-east-1"
         "nvidia-llama3-2-nv-embedqa-1b-v2-nim" "1.0.0" "ml.g5.xlarge" "mindbridge-embed"].
Proof. vm_compute. reflexivity. Qed.

Example both_survive_in_order :
  fst (@main_deploy (Stub.platform Stub.no_faults) ∅ "us-east-1" "2.1.0" "0.9.3"
         (Stub.start Stub.no_faults ∅))
  = Returned
      [endpoint_record (P := Stub.platform Stub.no_faults) "us-east-1"
         "nvidia-nemotron-nano-8b-nim" "2.1.0" "ml.g5.2xlarge" "mindbridge-llm";
       endpoint_record (P := Stub.platform Stub.no_faults) "us-east-1"
         "nvidia-llama3-2-nv-embedqa-1b-v2-nim" "0.9.3" "ml.g5.xlarge" "mindbridge-embed"].
Proof. vm_compute. reflexivity. Qed.

(** ** The whole run *)

Section MainFacts.

Context `{P : Platform}.
Variable environ : gmap string string.
Variable cwd : string.


(** The closing loop of [main] only prints. *)
Lemma for_each_print {A} (l : list A) (line : A -> string) (s : state) :
  for_each l (fun x => print (line x)) s
  = (Returned tt,
     {| world := world s; calls := calls s;
        stdout := (stdout s ++ map line l)%list; files := files s |}).
Proof.
  revert s. induction l as [|x l IH]; intros s; cbn [for_each map].
  - unfold ret. rewrite app_nil_r. now destruct s.
  - unfold bind, print at 1. rewrite IH. cbn. now rewrite <- app_assoc.
Qed.


Lemma main_summary_empty (s : state) :
  main_summary cwd [] s
  = (Returned tt,
     {| world := world s; calls := calls s;
        stdout := (stdout s ++ [failed_line])%list; files := files s |}).
Proof. reflexivity. Qed.

(** The summary for a list that is not empty: what the opening and the
    writing of the file make of it. *)
Lemma main_summary_outcome (endpoints : list EndpointInfo) (s : state) :
  endpoints <> [] ->
  main_summary cwd endpoints s
  = match os_open_w (Os.path_join cwd "nim_endpoints.json") (world s) with
    | Some e => (Raised e, s)
    | None =>
        match os_write (Os.path_join cwd "nim_endpoints.json")
                (Json.dumps (map instance_dict endpoints)) (world s) with
        | Some (e, n) =>
            (Raised e,
             {| world := world s; calls := calls s; stdout := stdout s;
                files :=
                  <[os_realpath (Os.path_join cwd "nim_endpoints.json") (world s) :=
                      PyStr.slice_to n (Json.dumps (map instance_dict endpoints))]>
                    (files s) |})
        | None =>
            (Returned tt,
             {| world := world s; calls := calls s;
                stdout := (stdout s ++ written_line :: map summary_line endpoints)%list;
                files :=
                  <[os_realpath (Os.path_join cwd "nim_endpoints.json") (world s) :=
                      Json.dumps (map instance_dict endpoints)]> (files s) |})
        end
    end.
Proof.
  intros Hne. destruct endpoints as [|e l]; [now elim Hne|].
  unfold main_summary, bind, write_file.
  destruct (os_open_w _ _) as [err|]; [reflexivity|].
  destruct (os_write _ _ _) as [[err n]|]; [reflexivity|].
  unfold print at 1. rewrite for_each_print. cbn [stdout world calls files].
  rewrite <- app_assoc. reflexivity.
Qed.

(** Whatever becomes of the file, the summary adds to the console only and
    makes no platform call. *)
Lemma main_summary_keeps (endpoints : list EndpointInfo) (s s' : state)
    (r : outcome unit) :
  main_summary cwd endpoints s = (r, s') ->
  calls s' = calls s /\ world s' = world s
  /\ exists more, stdout s' = (stdout s ++ more)%list.
Proof.
  destruct endpoints as [|e l].
  - rewrite main_summary_empty. intros H. injection H as _ <-. cbn. eauto.
  - rewrite main_summary_outcome by discriminate.
    destruct (os_open_w _ _) as [err|];
      [|destruct (os_write _ _ _) as [[err n]|]];
      intros H; injection H as _ <-; cbn; repeat split; eauto.
    all: exists []; now rewrite app_nil_r.
Qed.

End MainFacts.

Section MainCalls.

Context `{P : Platform}.
Variable environ : gmap string string.
Variable cwd : string.

(** The summary makes no platform call. *)
Lemma main_summary_calls (endpoints : list EndpointInfo) (s s' : state)
    (r : outcome unit) :
  main_summary cwd endpoints s = (r, s') -> calls s' = calls s.
Proof. intros H. now apply main_summary_keeps in H. Qed.

Lemma main_calls : respects (extends_calls (made_by_main environ)) (main environ cwd).
Proof.
  intros s r s'. unfold main, bind.
  destruct (main_endpoints environ s) as [[endpoints|e] s1] eqn:E; intros H.
  - destruct (main_endpoints_calls environ s _ _ E) as (new & Hn & HQ).
    exists new. split; [|exact HQ].
    rewrite (main_summary_calls _ _ _ _ H). exact Hn.
  - injection H as _ <-. apply (main_endpoints_calls environ s _ _ E).
Qed.

End MainCalls.

(** ** Outcomes of the run *)

(** C3, as amended. If no deployment succeeds, [main] writes no file, prints
    the line that reports the failure and returns; the interpreter then ends
    with status 0. *)
Theorem no_endpoints_no_summary `{P : Platform} (environ : gmap string string)
    (cwd : string) (s s1 : state) :
  main_endpoints environ s = (Returned [], s1) ->
  main environ cwd s
  = (Returned tt,
     {| world := world s1; calls := calls s1;
        stdout := (stdout s1 ++ [failed_line])%list; files := files s |})
  /\ fst (run environ cwd s) = 0.
Proof.
  intros E.
  assert (Hm : main environ cwd s
               = (Returned tt,
                  {| world := world s1; calls := calls s1;
                     stdout := (stdout s1 ++ [failed_line])%list;
                     files := files s |})).
  { unfold main, bind. rewrite E, main_summary_empty.
    now rewrite (main_endpoints_files environ s _ _ E). }
  split; [exact Hm|]. unfold run. now rewrite Hm.
Qed.

Lemma no_endpoints_no_summary_witness :
  files (snd (@main (Stub.platform Stub.deploy_refused) ∅ "/work"
                (Stub.start Stub.deploy_refused ∅))) = ∅
  /\ fst (@run (Stub.platform Stub.deploy_refused) ∅ "/work"
            (Stub.start Stub.deploy_refused ∅)) = 0.
Proof.
  destruct (@no_endpoints_no_summary (Stub.platform Stub.deploy_refused) ∅ "/work"
              (Stub.start Stub.deploy_refused ∅)
              (snd (@main_endpoints (Stub.platform Stub.deploy_refused) ∅
                      (Stub.start Stub.deploy_refused ∅))))
    as [Hm Hr]; [vm_compute; reflexivity|].
  split; [now rewrite Hm | exact Hr].
Defined.

(** C3, as stated, fails: with every endpoint creation refused the result
    list is empty and no file is written, yet the status is 0, not non-zero. *)
Lemma no_endpoints_status_is_zero :
  ~ (fst (@main_endpoints (Stub.platform Stub.deploy_refused) ∅
            (Stub.start Stub.deploy_refused ∅)) = Returned [] ->
     files (snd (@run (Stub.platform Stub.deploy_refused) ∅ "/work"
                   (Stub.start Stub.deploy_refused ∅))) = ∅
     /\ fst (@run (Stub.platform Stub.deploy_refused) ∅ "/work"
               (Stub.start Stub.deploy_refused ∅)) <> 0).
Proof.
  intros H. destruct H as [_ H]; [vm_compute; reflexivity|].
  apply H. vm_compute. reflexivity.
Qed.

(** C6. If the version look-up raises for either declared model, the run
    ends there with that fault, uncaught: no deployment call has been made,
    no file has been written, and the status is not 0. *)
Theorem resolution_fault_aborts_run `{P : Platform} (environ : gmap string string)
    (cwd : string) (s : state) (session : Session) (w0 w' : World) (e : exc) :
  sdk_Session (world s) = (Returned session, w0) ->
  resolution_raises (boto_region_name session) w0 w' e ->
  exists s',
    main environ cwd s = (Raised e, s')
    /\ world s' = w'
    /\ extends_calls (fun c => is_deployment_call c = false) s s'
    /\ files s' = files s
    /\ fst (run environ cwd s) <> 0.
Proof.
  intros Hs Hr.
  assert (Hm : exists s', main environ cwd s = (Raised e, s') /\ world s' = w'
                 /\ extends_calls (fun c => is_deployment_call c = false) s s'
                 /\ files s' = files s).
  { unfold main, main_endpoints, main_resolve, resolve_model_version,
      bind, invoke, print, ret.
    rewrite Hs. cbn.
    destruct (negb (String.eqb (EXECUTION_ROLE environ) "")); cbn;
      destruct Hr as [H1 | (specs & w1 & H1 & H2)];
      rewrite H1; cbn; try (rewrite H2; cbn);
      (eexists; split; [reflexivity|]; repeat split;
       eexists; split; [rewrite <- ?app_assoc; cbn [app]; reflexivity|];
       repeat constructor). }
  destruct Hm as (s' & Hm & Hw & Hc & Hf).
  exists s'. repeat split; auto.
  unfold run. rewrite Hm. cbn. destruct (isinstance_Exception e); discriminate.
Qed.

Lemma resolution_fault_aborts_run_witness :
  fst (@main (Stub.platform Stub.embed_unknown) ∅ "/work"
         (Stub.start Stub.embed_unknown ∅)) = Raised Stub.timed_out
  /\ fst (@run (Stub.platform Stub.embed_unknown) ∅ "/work"
            (Stub.start Stub.embed_unknown ∅)) <> 0.
Proof.
  destruct (@resolution_fault_aborts_run (Stub.platform Stub.embed_unknown) ∅ "/work"
              (Stub.start Stub.embed_unknown ∅) "us-east-1" [] [] Stub.timed_out)
    as (s' & Hm & _ & _ & _ & Hr).
  - reflexivity.
  - right. exists "1.0.0", []. split; reflexivity.
  - split; [now rewrite Hm | exact Hr].
Defined.

(** ** The summary file *)

Example dumps_one_record :
  Json.dumps [[("k", "v"); ("n", "a_b")]] =
  "[" ++ PyStr.nl ++
  "  {" ++ PyStr.nl ++
  "    " ++ Json.quote ++ "k" ++ Json.quote ++ ": " ++ Json.quote ++ "v" ++ Json.quote ++ "," ++ PyStr.nl ++
  "    " ++ Json.quote ++ "n" ++ Json.quote ++ ": " ++ Json.quote ++ "a_b" ++ Json.quote ++ PyStr.nl ++
  "  }" ++ PyStr.nl ++
  "]".
Proof. reflexivity. Qed.

Example path_join_cwd :
  Os.path_join "/home/user/project" "nim_endpoints.json"
  = "/home/user/project/nim_endpoints.json"
  /\ Os.path_join "/" "nim_endpoints.json" = "/nim_endpoints.json".
Proof. split; reflexivity. Qed.

(** ** Configuration from the environment *)

(** * Further properties of the script *)

(** ** Endpoint names *)

Lemma append_cons (x : ascii) (a b : string) : String x a ++ b = String x (a ++ b).
Proof. reflexivity. Qed.

Lemma append_empty (b : string) : "" ++ b = b.
Proof. reflexivity. Qed.

Ltac step_append := rewrite ?append_cons, ?append_empty; simpl.

Lemma chars_append (a b : string) :
  PyStr.chars (a ++ b) = (PyStr.chars a ++ PyStr.chars b)%list.
Proof. induction a as [|c a IH]; step_append; [reflexivity | now rewrite IH]. Qed.

Lemma length_append (a b : string) :
  String.length (a ++ b) = String.length a + String.length b.
Proof. induction a as [|c a IH]; step_append; [reflexivity | now rewrite IH]. Qed.

Lemma append_assoc (a b c : string) : (a ++ b) ++ c = a ++ b ++ c.
Proof. induction a as [|x a IH]; step_append; [reflexivity | now rewrite IH]. Qed.

Lemma hyphenate_length (s : string) :
  String.length (EndpointNamer.hyphenate s) = String.length s.
Proof.
  unfold EndpointNamer.hyphenate.
  induction s as [|c s IH]; simpl; [reflexivity | now rewrite IH].
Qed.

Lemma hyphenate_append (a b : string) :
  EndpointNamer.hyphenate (a ++ b)
  = EndpointNamer.hyphenate a ++ EndpointNamer.hyphenate b.
Proof.
  unfold EndpointNamer.hyphenate.
  induction a as [|c a IH]; step_append; [reflexivity | now rewrite IH].
Qed.

Lemma hyphenate_clean (s : string) :
  PyStr.contains "_" s = false -> EndpointNamer.hyphenate s = s.
Proof.
  unfold EndpointNamer.hyphenate.
  induction s as [|c s IH]; [reflexivity|].
  cbn [PyStr.chars map PyStr.of_chars PyStr.contains].
  unfold EndpointNamer.hyphenate_char at 1. rewrite (Ascii.eqb_sym "_" c).
  destruct (Ascii.eqb c "_"); [discriminate|]. intros H. now rewrite IH.
Qed.

Lemma hyphenate_slice_to (n : nat) (s : string) :
  EndpointNamer.hyphenate (PyStr.slice_to n s)
  = PyStr.slice_to n (EndpointNamer.hyphenate s).
Proof.
  unfold EndpointNamer.hyphenate.
  revert s; induction n as [|n IH]; intros [|c s]; cbn; try reflexivity.
  now rewrite IH.
Qed.

Lemma slice_to_exact_length (n : nat) (s : string) :
  String.length (PyStr.slice_to n s) = Nat.min n (String.length s).
Proof.
  revert s; induction n as [|n IH]; intros [|c s]; cbn; try reflexivity.
  now rewrite IH.
Qed.

Lemma slice_to_append (n : nat) (a b : string) :
  PyStr.slice_to n (a ++ b)
  = PyStr.slice_to n a ++ PyStr.slice_to (n - String.length a) b.
Proof.
  revert a; induction n as [|n IH]; intros [|c a]; step_append; try reflexivity.
  now rewrite IH.
Qed.

Lemma contains_append (c : ascii) (a b : string) :
  PyStr.contains c (a ++ b) = (PyStr.contains c a || PyStr.contains c b)%bool.
Proof.
  induction a as [|d a IH]; step_append; [reflexivity|].
  destruct (Ascii.eqb c d); [reflexivity | exact IH].
Qed.

(** The name in terms of the part before the version and the version. *)
Lemma make_endpoint_name_split (endpoint_prefix model_id model_version : string) :
  make_endpoint_name endpoint_prefix model_id model_version
  = EndpointNamer.hyphenate
      (PyStr.slice_to 63 (endpoint_prefix ++ "-" ++ model_id ++ "-") ++
       PyStr.slice_to (version_room endpoint_prefix model_id) model_version).
Proof.
  unfold make_endpoint_name, version_room. cbv zeta.
  rewrite replace_underscore, <- hyphenate_slice_to.
  replace (endpoint_prefix ++ "-" ++ model_id ++ "-" ++ model_version)
    with ((endpoint_prefix ++ "-" ++ model_id ++ "-") ++ model_version)
    by (now rewrite !append_assoc).
  rewrite slice_to_append. do 3 f_equal.
  rewrite !length_append. cbn [String.length]. lia.
Qed.

(** X1. The endpoint name has as many characters as the three parts and the
    two separators together, or 63 if that is more. *)
Theorem make_endpoint_name_length (endpoint_prefix model_id model_version : string) :
  String.length (make_endpoint_name endpoint_prefix model_id model_version)
  = Nat.min 63 (String.length endpoint_prefix + String.length model_id +
                String.length model_version + 2).
Proof.
  unfold make_endpoint_name. cbv zeta.
  rewrite replace_underscore, slice_to_exact_length, hyphenate_length.
  rewrite !length_append. cbn [String.length]. f_equal. lia.
Qed.

(** X2. When the parts hold no underscore and fit into 63 characters with
    their separators, the endpoint name is their plain concatenation. *)
Theorem make_endpoint_name_plain (endpoint_prefix model_id model_version : string) :
  PyStr.contains "_" endpoint_prefix = false ->
  PyStr.contains "_" model_id = false ->
  PyStr.contains "_" model_version = false ->
  String.length endpoint_prefix + String.length model_id +
    String.length model_version + 2 <= 63 ->
  make_endpoint_name endpoint_prefix model_id model_version
  = endpoint_prefix ++ "-" ++ model_id ++ "-" ++ model_version.
Proof.
  intros Hp Hm Hv Hlen.
  unfold make_endpoint_name. cbv zeta. rewrite replace_underscore.
  rewrite hyphenate_clean.
  - apply slice_to_short. rewrite !length_append. cbn [String.length]. lia.
  - rewrite !contains_append, Hp, Hm, Hv. reflexivity.
Qed.

Lemma make_endpoint_name_plain_witness :
  make_endpoint_name "pfx-a" "A" "1.0.0" = "pfx-a-A-1.0.0".
Proof.
  apply (make_endpoint_name_plain "pfx-a" "A" "1.0.0");
    [reflexivity | reflexivity | reflexivity | cbn; lia].
Defined.

(** X3. Of the version only the characters that fit count: two versions that
    agree on them give the same endpoint name, however they go on. *)
Theorem make_endpoint_name_collides (endpoint_prefix model_id v1 v2 : string) :
  PyStr.slice_to (version_room endpoint_prefix model_id) v1
  = PyStr.slice_to (version_room endpoint_prefix model_id) v2 ->
  make_endpoint_name endpoint_prefix model_id v1
  = make_endpoint_name endpoint_prefix model_id v2.
Proof.
  intros H. rewrite !make_endpoint_name_split. now rewrite H.
Qed.

Lemma make_endpoint_name_collides_witness :
  make_endpoint_name "mindbridge-embed" "nvidia-llama3-2-nv-embedqa-1b-v2-nim" "2024.11.05"
  = make_endpoint_name "mindbridge-embed" "nvidia-llama3-2-nv-embedqa-1b-v2-nim" "2024.11.06".
Proof.
  apply (make_endpoint_name_collides "mindbridge-embed"
           "nvidia-llama3-2-nv-embedqa-1b-v2-nim" "2024.11.05" "2024.11.06").
  reflexivity.
Defined.

(** ** More on one deployment *)

Ltac sdk_cases :=
  repeat match goal with
    | |- context [sdk_model_uris_retrieve ?x1 ?x2 ?x3 ?x4 ?x0] =>
        destruct (sdk_model_uris_retrieve x1 x2 x3 x4 x0) as [[?uri|?e] ?w]; cbn
    | |- context [sdk_image_uris_retrieve ?x1 ?x2 ?x3 ?x4 ?x5 ?x6 ?x0] =>
        destruct (sdk_image_uris_retrieve x1 x2 x3 x4 x5 x6 x0) as [[?img|?e] ?w]; cbn
    | |- context [sdk_Model ?x1 ?x2 ?x3 ?x4 ?x0] =>
        destruct (sdk_Model x1 x2 x3 x4 x0) as [[?m|?e] ?w]; cbn
    | |- context [sdk_deploy ?x1 ?x2 ?x3 ?x4 ?x5 ?x0] =>
        destruct (sdk_deploy x1 x2 x3 x4 x5 x0) as [[?p|?e] ?w]; cbn
    | |- context [sdk_delete_model ?x1 ?x0] =>
        destruct (sdk_delete_model x1 x0) as [[[]|?e] ?w]; cbn
    end.

Ltac exc_cases :=
  repeat match goal with
    | e : exc |- _ =>
        unfold failure_line, isinstance_ClientError, isinstance_Exception;
        destruct e as [[| |] ?text]; cbn
    end.

(** The calls of one [deploy_model], counted against the steps of the
    platform. *)
Lemma deploy_model_calls_counted `{P : Platform} (environ : gmap string string)
    (sess : Session) (model_id model_version instance_type endpoint_prefix : string)
    (s : state) :
  exists new,
    calls (snd (deploy_model environ sess model_id model_version instance_type
                  endpoint_prefix s)) = (calls s ++ new)%list
    /\ Forall (made_by_deploy_model (EXECUTION_ROLE environ) sess model_id
                 model_version instance_type endpoint_prefix) new
    /\ match deploy_steps (EXECUTION_ROLE environ) sess model_id model_version
               instance_type
               (make_endpoint_name endpoint_prefix model_id model_version) (world s) with
       | inr _ => List.length new = 5
       | inl (st, _, _) =>
           List.length new = S (step_index st)
           /\ (step_index st < 3 -> Forall (fun c => instance_type_of c = None) new)
       end.
Proof.
  unfold deploy_model, deploy_steps, bind, try_except, invoke, print, ret, raise.
  cbn. sdk_cases; exc_cases.
  all: eexists; split; [rewrite <- ?app_assoc; cbn [app]; reflexivity|].
  all: split; [repeat constructor|].
  all: cbn; try reflexivity.
  all: split; [reflexivity|].
  all: intros Hlt; try (exfalso; lia).
  all: repeat constructor.
Qed.

(** X4. When every step goes through, [deploy_model] returns the record of
    its arguments and the session's region; it has made the five calls in
    order (one instance, the given instance type and name, waiting), printed
    its three opening lines and the line of success, and touched no file. *)
Theorem deploy_model_success `{P : Platform} (environ : gmap string string)
    (sess : Session) (model_id model_version instance_type endpoint_prefix : string)
    (s : state) (model_uri image_uri : string) (model : Model) (predictor : Predictor)
    (w1 w2 w3 w4 w5 : World) :
  sdk_model_uris_retrieve model_id model_version "inference" (boto_region_name sess)
    (world s) = (Returned model_uri, w1) ->
  sdk_image_uris_retrieve None model_id model_version "inference" "inference"
    (boto_region_name sess) w1 = (Returned image_uri, w2) ->
  sdk_Model image_uri model_uri (EXECUTION_ROLE environ) sess w2 = (Returned model, w3) ->
  sdk_deploy model 1 instance_type
    (make_endpoint_name endpoint_prefix model_id model_version) true w3
    = (Returned predictor, w4) ->
  sdk_delete_model predictor w4 = (Returned tt, w5) ->
  deploy_model environ sess model_id model_version instance_type endpoint_prefix s
  = (Returned (Some {| model_id := model_id;
                       model_version := model_version;
                       endpoint_name :=
                         make_endpoint_name endpoint_prefix model_id model_version;
                       instance_type := instance_type;
                       region := boto_region_name sess |}),
     {| world := w5;
        calls :=
          (calls s ++
           [ CallModelUris model_id model_version "inference" (boto_region_name sess);
             CallImageUris None model_id model_version "inference" "inference"
               (boto_region_name sess);
             CallModel image_uri model_uri (EXECUTION_ROLE environ) sess;
             CallDeploy model 1 instance_type
               (make_endpoint_name endpoint_prefix model_id model_version) true;
             CallDeleteModel predictor ])%list;
        stdout :=
          (stdout s ++
           deploy_header model_id model_version instance_type endpoint_prefix ++
           [ deployed_line (make_endpoint_name endpoint_prefix model_id model_version) ])%list;
        files := files s |}).
Proof.
  intros H1 H2 H3 H4 H5.
  unfold deploy_model, bind, try_except, invoke, print, ret, raise. cbn.
  rewrite H1; cbn. rewrite H2; cbn. rewrite H3; cbn. rewrite H4; cbn.
  rewrite H5; cbn.
  unfold deploy_header, deployed_line. rewrite <- ?app_assoc. reflexivity.
Qed.

Lemma deploy_model_success_witness :
  fst (@deploy_model (Stub.platform Stub.no_faults) ∅ "us-east-1"
         "nvidia-nemotron-nano-8b-nim" "1.0.0" "ml.g5.2xlarge" "mindbridge-llm"
         (Stub.start Stub.no_faults ∅))
  = Returned (Some {| model_id := "nvidia-nemotron-nano-8b-nim";
                      model_version := "1.0.0";
                      endpoint_name := Stub.llm_name;
                      instance_type := "ml.g5.2xlarge";
                      region := "us-east-1" |}).
Proof.
  rewrite (@deploy_model_success (Stub.platform Stub.no_faults) ∅
             "us-east-1" "nvidia-nemotron-nano-8b-nim" "1.0.0" "ml.g5.2xlarge"
             "mindbridge-llm" (Stub.start Stub.no_faults ∅)
             "s3://models/nvidia-nemotron-nano-8b-nim"
             "ecr/nvidia-nemotron-nano-8b-nim"
             ("ecr/nvidia-nemotron-nano-8b-nim", "s3://models/nvidia-nemotron-nano-8b-nim")
             Stub.llm_name [] [] [] [Stub.llm_name] [Stub.llm_name]);
    reflexivity.
Defined.

(** X5. A fault that is not an instance of [Exception] is not caught: if a
    step raises one, [deploy_model] raises it to its caller, prints no line
    of failure, and leaves the world as the failing call left it. *)
Theorem deploy_model_lets_through `{P : Platform} (environ : gmap string string)
    (sess : Session) (model_id model_version instance_type endpoint_prefix : string)
    (s : state) (st : step) (e : exc) (w' : World) :
  deploy_steps (EXECUTION_ROLE environ) sess model_id model_version instance_type
    (make_endpoint_name endpoint_prefix model_id model_version) (world s)
    = inl (st, e, w') ->
  isinstance_Exception e = false ->
  exists s',
    deploy_model environ sess model_id model_version instance_type endpoint_prefix s
      = (Raised e, s')
    /\ world s' = w'
    /\ files s' = files s
    /\ stdout s' =
         (stdout s ++
          deploy_header model_id model_version instance_type endpoint_prefix ++
          match st with
          | DeleteModelStep =>
              [deployed_line (make_endpoint_name endpoint_prefix model_id model_version)]
          | _ => []
          end)%list.
Proof.
  intros Hsteps He.
  destruct (deploy_model_run environ sess model_id model_version instance_type
              endpoint_prefix s) as (s' & Hs & Hf & Hr).
  cbv zeta in Hr. rewrite Hsteps, He in Hr. destruct Hr as (Hr & Hw & Hout).
  exists s'. repeat split; auto.
  - rewrite <- Hr, <- Hs. apply surjective_pairing.
  - rewrite Hout, app_nil_r. reflexivity.
Qed.

Lemma deploy_model_lets_through_witness :
  fst (@deploy_model (Stub.platform Stub.interrupted_wait) ∅ "us-east-1"
         "nvidia-nemotron-nano-8b-nim" "1.0.0" "ml.g5.2xlarge" "mindbridge-llm"
         (Stub.start Stub.interrupted_wait ∅))
  = Raised Stub.interrupted.
Proof.
  destruct (@deploy_model_lets_through (Stub.platform Stub.interrupted_wait) ∅
              "us-east-1" "nvidia-nemotron-nano-8b-nim" "1.0.0" "ml.g5.2xlarge"
              "mindbridge-llm" (Stub.start Stub.interrupted_wait ∅)
              DeployStep Stub.interrupted [])
    as (s' & Hd & _); [reflexivity | reflexivity |].
  now rewrite Hd.
Defined.

(** X6. The steps are taken in order and end at the first that raises: if
    step [st] raises, exactly the calls up to it have been made, each with the
    arguments [deploy_model] fixes, and when that is before the endpoint
    creation no endpoint creation has been requested. *)
Theorem deploy_model_stops_at_fault `{P : Platform} (environ : gmap string string)
    (sess : Session) (model_id model_version instance_type endpoint_prefix : string)
    (s : state) (st : step) (e : exc) (w' : World) :
  deploy_steps (EXECUTION_ROLE environ) sess model_id model_version instance_type
    (make_endpoint_name endpoint_prefix model_id model_version) (world s)
    = inl (st, e, w') ->
  exists new,
    calls (snd (deploy_model environ sess model_id model_version instance_type
                  endpoint_prefix s)) = (calls s ++ new)%list
    /\ List.length new = S (step_index st)
    /\ Forall (made_by_deploy_model (EXECUTION_ROLE environ) sess model_id
                 model_version instance_type endpoint_prefix) new
    /\ (step_index st < 3 -> Forall (fun c => instance_type_of c = None) new).
Proof.
  intros Hsteps.
  destruct (deploy_model_calls_counted environ sess model_id model_version
              instance_type endpoint_prefix s) as (new & Hc & Hall & Hn).
  rewrite Hsteps in Hn. destruct Hn as (Hn & Hd).
  exists new. auto.
Qed.

Lemma deploy_model_stops_at_fault_witness :
  calls (snd (@deploy_model (Stub.platform Stub.llm_uri_fails) ∅ "us-east-1"
                "nvidia-nemotron-nano-8b-nim" "1.0.0" "ml.g5.2xlarge" "mindbridge-llm"
                (Stub.start Stub.llm_uri_fails ∅)))
  = [@CallModelUris (Stub.platform Stub.llm_uri_fails)
       "nvidia-nemotron-nano-8b-nim" "1.0.0" "inference" "us-east-1"].
Proof.
  destruct (@deploy_model_stops_at_fault (Stub.platform Stub.llm_uri_fails) ∅
              "us-east-1" "nvidia-nemotron-nano-8b-nim" "1.0.0" "ml.g5.2xlarge"
              "mindbridge-llm" (Stub.start Stub.llm_uri_fails ∅)
              ModelUriStep Stub.throttled [])
    as (new & Hc & _); [reflexivity|].
  reflexivity.
Defined.

(** ** More on the whole run *)



(** X7. If [sagemaker.Session()] raises, the run ends with that fault before
    anything is printed: the session is the only call made, no file is
    touched, and the status is not 0. *)
Theorem session_fault_aborts_run `{P : Platform} (environ : gmap string string)
    (cwd : string) (s : state) (e : exc) (w' : World) :
  sdk_Session (world s) = (Raised e, w') ->
  main environ cwd s
  = (Raised e,
     {| world := w'; calls := (calls s ++ [CallSession])%list;
        stdout := stdout s; files := files s |})
  /\ fst (run environ cwd s) <> 0.
Proof.
  intros Hs.
  assert (Hm : main environ cwd s
               = (Raised e,
                  {| world := w'; calls := (calls s ++ [CallSession])%list;
                     stdout := stdout s; files := files s |})).
  { unfold main, main_endpoints, bind, invoke. now rewrite Hs. }
  split; [exact Hm|]. unfold run. rewrite Hm. cbn.
  destruct (isinstance_Exception e); discriminate.
Qed.

Lemma session_fault_aborts_run_witness :
  let f := {| Stub.on_session := Some Stub.throttled;
              Stub.on_specs := Stub.never; Stub.on_model_uri := Stub.never;
              Stub.on_image_uri := Stub.never; Stub.on_model := Stub.never;
              Stub.on_deploy := Stub.never; Stub.on_delete_model := Stub.never |} in
  stdout (snd (@main (Stub.platform f) ∅ "/work" (Stub.start f ∅))) = []
  /\ fst (@run (Stub.platform f) ∅ "/work" (Stub.start f ∅)) = 1.
Proof.
  cbv zeta.
  destruct (@session_fault_aborts_run
              (Stub.platform
                 {| Stub.on_session := Some Stub.throttled;
                    Stub.on_specs := Stub.never; Stub.on_model_uri := Stub.never;
                    Stub.on_image_uri := Stub.never; Stub.on_model := Stub.never;
                    Stub.on_deploy := Stub.never; Stub.on_delete_model := Stub.never |})
              ∅ "/work" (Stub.start _ ∅) Stub.throttled [])
    as (Hm & _); [reflexivity|].
  split; [now rewrite Hm | reflexivity].
Defined.

(** X8. When both deployments go through, the result list holds the two
    records, the reasoning model's first. *)
Theorem both_deployments_succeed `{P : Platform} (environ : gmap string string)
    (session : Session) (llm_version embed_version : string)
    (s : state) (w1 w2 : World) :
  deployment_succeeds (EXECUTION_ROLE environ) session NEMOTRON_MODEL_ID llm_version
    (LLM_INSTANCE environ) "mindbridge-llm" (world s) w1 ->
  deployment_succeeds (EXECUTION_ROLE environ) session EMBED_MODEL_ID embed_version
    (EMBED_INSTANCE environ) "mindbridge-embed" w1 w2 ->
  exists s',
    main_deploy environ session llm_version embed_version s
    = (Returned
         [ endpoint_record session NEMOTRON_MODEL_ID llm_version
             (LLM_INSTANCE environ) "mindbridge-llm";
           endpoint_record session EMBED_MODEL_ID embed_version
             (EMBED_INSTANCE environ) "mindbridge-embed" ], s')
    /\ world s' = w2 /\ files s' = files s.
Proof.
  intros H1 H2.
  apply deploy_model_succeeds in H1 as (s1 & E1 & Hw1 & Hf1).
  rewrite <- Hw1 in H2.
  apply deploy_model_succeeds in H2 as (s2 & E2 & Hw2 & Hf2).
  exists s2. unfold main_deploy, bind. rewrite E1, E2. cbn.
  repeat split; congruence.
Qed.

Lemma both_deployments_succeed_witness :
  fst (@main_deploy (Stub.platform Stub.no_faults) ∅ "us-east-1" "2.1.0" "0.9.3"
         (Stub.start Stub.no_faults ∅))
  = Returned
      [endpoint_record (P := Stub.platform Stub.no_faults) "us-east-1"
         "nvidia-nemotron-nano-8b-nim" "2.1.0" "ml.g5.2xlarge" "mindbridge-llm";
       endpoint_record (P := Stub.platform Stub.no_faults) "us-east-1"
         "nvidia-llama3-2-nv-embedqa-1b-v2-nim" "0.9.3" "ml.g5.xlarge" "mindbridge-embed"].
Proof.
  destruct (@both_deployments_succeed (Stub.platform Stub.no_faults) ∅ "us-east-1"
              "2.1.0" "0.9.3" (Stub.start Stub.no_faults ∅)
              ["mindbridge-llm-nvidia-nemotron-nano-8b-nim-2.1.0"]
              ["mindbridge-llm-nvidia-nemotron-nano-8b-nim-2.1.0";
               "mindbridge-embed-nvidia-llama3-2-nv-embedqa-1b-v2-nim-0.9.3"])
    as (s' & Hm & _).
  - exists "mindbridge-llm-nvidia-nemotron-nano-8b-nim-2.1.0". vm_compute. reflexivity.
  - exists "mindbridge-embed-nvidia-llama3-2-nv-embedqa-1b-v2-nim-0.9.3".
    vm_compute. reflexivity.
  - now rewrite Hm.
Defined.

Arguments deploy_model : simpl never.
Arguments main_deploy : simpl never.
Arguments main_summary : simpl never.

(** With the session and both versions there, [main] reaches its two
    deployments in a state that is known: three calls made, the banner and
    the three lines of the version look-up printed. *)
Lemma main_endpoints_resolved `{P : Platform} (environ : gmap string string)
    (s : state) (session : Session) (llm_specs embed_specs : Specs) (w0 w1 w2 : World) :
  sdk_Session (world s) = (Returned session, w0) ->
  sdk_get_model_specs NEMOTRON_MODEL_ID (boto_region_name session) w0
    = (Returned llm_specs, w1) ->
  sdk_get_model_specs EMBED_MODEL_ID (boto_region_name session) w1
    = (Returned embed_specs, w2) ->
  main_endpoints environ s
  = main_deploy environ session (specs_model_version llm_specs)
      (specs_model_version embed_specs)
      {| world := w2;
         calls :=
           (calls s ++
            [ CallSession;
              CallGetModelSpecs NEMOTRON_MODEL_ID (boto_region_name session);
              CallGetModelSpecs EMBED_MODEL_ID (boto_region_name session) ])%list;
         stdout :=
           (stdout s ++ banner environ (boto_region_name session) ++
            resolve_lines (specs_model_version llm_specs)
              (specs_model_version embed_specs))%list;
         files := files s |}.
Proof.
  intros Hs H1 H2.
  unfold main_endpoints, main_resolve, resolve_model_version, banner, resolve_lines.
  unfold bind, invoke, print, ret. rewrite Hs. cbn.
  destruct (String.eqb (EXECUTION_ROLE environ) ""); cbn;
    rewrite H1; cbn; rewrite H2; cbn; rewrite <- ?app_assoc; reflexivity.
Qed.

(** A fault outside [Exception] in one deployment, seen from the caller. *)
Lemma deploy_model_raises `{P : Platform} (environ : gmap string string)
    (sess : Session) (model_id model_version instance_type endpoint_prefix : string)
    (s : state) (st : step) (e : exc) (w' : World) :
  deploy_steps (EXECUTION_ROLE environ) sess model_id model_version instance_type
    (make_endpoint_name endpoint_prefix model_id model_version) (world s)
    = inl (st, e, w') ->
  isinstance_Exception e = false ->
  exists s',
    deploy_model environ sess model_id model_version instance_type endpoint_prefix s
      = (Raised e, s')
    /\ world s' = w' /\ files s' = files s.
Proof.
  intros Hsteps He.
  destruct (deploy_model_run environ sess model_id model_version instance_type
              endpoint_prefix s) as (s' & Hs & Hf & Hr).
  cbv zeta in Hr. rewrite Hsteps, He in Hr. destruct Hr as (Hr & Hw & _).
  exists s'. repeat split; auto.
  rewrite <- Hr, <- Hs. apply surjective_pairing.
Qed.

Lemma not_attempted_by_other `{P : Platform} (role : string) (sess : Session)
    (model_id other model_version instance_type endpoint_prefix : string)
    (s s' : state) (new : list call) :
  other <> model_id ->
  calls s' = (calls s ++ new)%list ->
  Forall (made_by_deploy_model role sess model_id model_version instance_type
            endpoint_prefix) new ->
  ~ attempted other s -> ~ attempted other s'.
Proof.
  intros Hne Hc Hall Hs (v & sc & r & Hin). rewrite Hc in Hin.
  apply in_app_or in Hin as [Hin | Hin].
  - apply Hs. now exists v, sc, r.
  - rewrite List.Forall_forall in Hall. specialize (Hall _ Hin).
    cbn in Hall. now destruct Hall as (Hm & _).
Qed.

(** X10. A fault outside [Exception] in the first deployment ends the two
    deployments: [main] gets the fault raised, and the second model's
    deployment is not attempted. *)
Theorem interrupt_skips_second_deployment `{P : Platform} (environ : gmap string string)
    (session : Session) (llm_version embed_version : string)
    (s : state) (st : step) (e : exc) (w1 : World) :
  deploy_steps (EXECUTION_ROLE environ) session NEMOTRON_MODEL_ID llm_version
    (LLM_INSTANCE environ)
    (make_endpoint_name "mindbridge-llm" NEMOTRON_MODEL_ID llm_version) (world s)
    = inl (st, e, w1) ->
  isinstance_Exception e = false ->
  exists s',
    main_deploy environ session llm_version embed_version s = (Raised e, s')
    /\ world s' = w1
    /\ files s' = files s
    /\ (~ attempted EMBED_MODEL_ID s -> ~ attempted EMBED_MODEL_ID s').
Proof.
  intros Hsteps He.
  destruct (deploy_model_raises environ session NEMOTRON_MODEL_ID llm_version
              (LLM_INSTANCE environ) "mindbridge-llm" s st e w1 Hsteps He)
    as (s' & Hd & Hw & Hf).
  exists s'. unfold main_deploy, bind. rewrite Hd. repeat split; auto.
  destruct (deploy_model_calls_counted environ session NEMOTRON_MODEL_ID llm_version
              (LLM_INSTANCE environ) "mindbridge-llm" s) as (new & Hc & Hall & _).
  rewrite Hd in Hc. cbn [snd] in Hc.
  eapply not_attempted_by_other; [|exact Hc|exact Hall]. discriminate.
Qed.

Lemma interrupt_skips_second_deployment_witness :
  let r := @main_deploy (Stub.platform Stub.interrupted_wait) ∅ "us-east-1"
             "1.0.0" "1.0.0" (Stub.start Stub.interrupted_wait ∅) in
  fst r = Raised Stub.interrupted /\ ~ attempted "nvidia-llama3-2-nv-embedqa-1b-v2-nim" (snd r).
Proof.
  cbv zeta.
  destruct (@interrupt_skips_second_deployment (Stub.platform Stub.interrupted_wait) ∅
              "us-east-1" "1.0.0" "1.0.0" (Stub.start Stub.interrupted_wait ∅)
              DeployStep Stub.interrupted [])
    as (s' & Hm & _ & _ & Hn); [reflexivity | reflexivity |].
  rewrite Hm. split; [reflexivity|]. apply Hn.
  intros (v & sc & r & []).
Defined.

Lemma make_endpoint_name_acceptable (endpoint_prefix model_id model_version : string) :
  acceptable_name (make_endpoint_name endpoint_prefix model_id model_version).
Proof.
  unfold acceptable_name, make_endpoint_name. cbv zeta.
  rewrite replace_underscore. split.
  - apply slice_to_length.
  - apply slice_to_contains, hyphenate_no_underscore.
Qed.

(** X12. Whatever versions the catalogue returns, every endpoint name a run
    asks the platform to create has at most 63 characters and no
    underscore. *)
Theorem names_handed_to_platform `{P : Platform} (environ : gmap string string)
    (cwd : string) (s s' : state) (r : outcome unit) :
  main environ cwd s = (r, s') ->
  extends_calls
    (fun c => forall name, endpoint_name_of c = Some name -> acceptable_name name) s s'.
Proof.
  intros H. destruct (main_calls environ cwd s r s' H) as (new & Hn & HQ).
  exists new. split; [exact Hn|].
  eapply List.Forall_impl; [|exact HQ].
  intros c [-> | [(x & ->) | [(x & ->) | [(sess & v & Hc) | (sess & v & Hc)]]]]
    name Hname; try discriminate Hname;
    destruct c; cbn in *; try discriminate Hname;
    injection Hname as <-; destruct Hc as (_ & _ & -> & _);
    apply make_endpoint_name_acceptable.
Qed.

Lemma names_handed_to_platform_witness :
  let f := Stub.no_faults in
  extends_calls
    (fun c => forall name, endpoint_name_of c = Some name -> acceptable_name name)
    (Stub.start f ∅) (snd (@main (Stub.platform f) ∅ "/work" (Stub.start f ∅))).
Proof.
  cbv zeta.
  apply (@names_handed_to_platform (Stub.platform Stub.no_faults) ∅ "/work"
           (Stub.start Stub.no_faults ∅) _
           (fst (@main (Stub.platform Stub.no_faults) ∅ "/work"
                   (Stub.start Stub.no_faults ∅)))).
  apply surjective_pairing.
Defined.

(** ** Console and call log of a run *)

Section Console.

Context `{P : Platform}.
Variable environ : gmap string string.

Lemma extends_stdout_refl (s : state) : extends_stdout s s.
Proof. exists []. now rewrite app_nil_r. Qed.

Lemma extends_stdout_trans (s1 s2 s3 : state) :
  extends_stdout s1 s2 -> extends_stdout s2 s3 -> extends_stdout s1 s3.
Proof.
  intros (m1 & E1) (m2 & E2). exists (m1 ++ m2)%list.
  now rewrite E2, E1, app_assoc.
Qed.

Lemma extends_stdout_print (line : string) : respects extends_stdout (print line).
Proof. intros s r s' H. injection H as _ <-. now exists [line]. Qed.

Lemma extends_stdout_invoke A c (f : World -> outcome A * World) :
  respects extends_stdout (invoke c f).
Proof.
  intros s r s'. unfold invoke. destruct (f (world s)) as [r0 w].
  intros H. injection H as _ <-. exists []. cbn. now rewrite app_nil_r.
Qed.

(** What follows the banner in [main], up to the result list. *)
Lemma after_banner_extends_stdout (session : Session) :
  respects extends_stdout
    (bind (main_resolve (boto_region_name session))
       (fun versions => main_deploy environ session (fst versions) (snd versions))).
Proof.
  apply respects_bind; [exact extends_stdout_trans | |].
  - unfold main_resolve.
    repeat first
      [ apply extends_stdout_print
      | apply respects_ret; exact extends_stdout_refl
      | apply (respects_resolve_model_version extends_stdout (fun _ => True));
        [ exact extends_stdout_refl | exact extends_stdout_trans
        | intros; apply extends_stdout_invoke | exact I ]
      | apply respects_bind; [exact extends_stdout_trans | | intros ?] ].
  - intros versions.
    apply (respects_main_deploy extends_stdout (fun _ => True)); auto.
    + exact extends_stdout_refl.
    + exact extends_stdout_trans.
    + exact extends_stdout_print.
    + intros. apply extends_stdout_invoke.
Qed.

Lemma main_endpoints_banner (s : state) (session : Session) (w0 : World) :
  sdk_Session (world s) = (Returned session, w0) ->
  main_endpoints environ s
  = bind (main_resolve (boto_region_name session))
      (fun versions => main_deploy environ session (fst versions) (snd versions))
      {| world := w0; calls := (calls s ++ [CallSession])%list;
         stdout := (stdout s ++ banner environ (boto_region_name session))%list;
         files := files s |}.
Proof.
  intros Hs. unfold main_endpoints, banner.
  unfold bind at 1. unfold invoke at 1. rewrite Hs.
  unfold bind at 1 2 3 4 5. unfold print at 1 2 3 4.
  destruct (String.eqb (EXECUTION_ROLE environ) ""); cbn [negb];
    unfold print at 1; cbn [stdout world calls files];
    rewrite <- ?app_assoc; reflexivity.
Qed.

End Console.

(** X14. In every run that gets its session the banner is printed first,
    whatever happens afterwards.  Its last line names the execution role; it
    names the default role when [SAGEMAKER_EXECUTION_ROLE] is unset, and says
    that the environment defaults are used when the variable is set to the
    empty string. *)
Theorem banner_comes_first `{P : Platform} (environ : gmap string string)
    (cwd : string) (s s' : state) (r : outcome unit) (session : Session) (w0 : World) :
  sdk_Session (world s) = (Returned session, w0) ->
  main environ cwd s = (r, s') ->
  (exists rest,
     stdout s' = (stdout s ++ banner environ (boto_region_name session) ++ rest)%list)
  /\ (environ !! "SAGEMAKER_EXECUTION_ROLE" = Some "" ->
      List.last (banner environ (boto_region_name session)) ""
      = "Execution role: using environment defaults (SageMaker managed)")
  /\ (environ !! "SAGEMAKER_EXECUTION_ROLE" = None ->
      List.last (banner environ (boto_region_name session)) ""
      = "Execution role: " ++ DEFAULT_EXECUTION_ROLE).
Proof.
  intros Hs H. split; [|split].
  - unfold main, bind in H. rewrite (main_endpoints_banner environ s session w0 Hs) in H.
    match type of H with
    | context [bind ?m ?k ?st] => destruct (bind m k st) as [[endpoints|e] s1] eqn:E
    end.
    + apply after_banner_extends_stdout in E as (more & E). cbn [stdout] in E.
      apply main_summary_keeps in H as (_ & _ & (more' & H)).
      exists (more ++ more')%list. rewrite H, E, <- !app_assoc. reflexivity.
    + injection H as _ <-.
      apply after_banner_extends_stdout in E as (more & E). cbn [stdout] in E.
      exists more. rewrite E, <- !app_assoc. reflexivity.
  - intros Hv. unfold banner, EXECUTION_ROLE, Os.getenv. rewrite Hv. reflexivity.
  - intros Hv. unfold banner, EXECUTION_ROLE, Os.getenv. rewrite Hv. reflexivity.
Qed.

Lemma banner_comes_first_witness :
  let environ : gmap string string := {["SAGEMAKER_EXECUTION_ROLE" := ""]} in
  List.last (banner environ "us-east-1") ""
  = "Execution role: using environment defaults (SageMaker managed)".
Proof.
  cbv zeta.
  destruct (@banner_comes_first (Stub.platform Stub.embed_unknown)
              {["SAGEMAKER_EXECUTION_ROLE" := ""]} "/work"
              (Stub.start Stub.embed_unknown ∅) _ _ "us-east-1" []
              eq_refl (surjective_pairing _))
    as (_ & H & _).
  apply H. reflexivity.
Defined.

(** ** The text of the summary *)

Lemma plain_text_append (a b : string) :
  plain_text (a ++ b) = (plain_text a && plain_text b)%bool.
Proof. unfold plain_text. now rewrite chars_append, forallb_app. Qed.

Lemma escape_char_plain (c : ascii) : plain_text (Json.escape_char c) = true.
Proof. destruct c as [[] [] [] [] [] [] [] []]; vm_compute; reflexivity. Qed.

Lemma escape_plain (s : string) : plain_text (Json.escape s) = true.
Proof.
  induction s as [|c s IH]; [reflexivity|].
  cbn [Json.escape]. now rewrite plain_text_append, escape_char_plain, IH.
Qed.

Lemma dumps_str_plain (s : string) : plain_text (Json.dumps_str s) = true.
Proof.
  unfold Json.dumps_str. now rewrite !plain_text_append, escape_plain.
Qed.

Lemma spaces_plain (n : nat) : plain_text (Json.spaces n) = true.
Proof. unfold Json.spaces. induction n as [|n IH]; [reflexivity | exact IH]. Qed.

Lemma dump_items_plain (indent : nat) (items : list string) :
  Forall (fun x => plain_text x = true) items ->
  plain_text (Json.dump_items indent items) = true.
Proof.
  induction items as [|x rest IH]; intros H; [reflexivity|].
  apply Forall_cons_1 in H as (Hx & Hrest).
  cbn [Json.dump_items]. destruct rest as [|y rest].
  - now rewrite plain_text_append, spaces_plain, Hx.
  - rewrite !plain_text_append, spaces_plain, Hx, (IH Hrest). reflexivity.
Qed.

Lemma dumps_dict_plain (depth : nat) (d : list (string * string)) :
  plain_text (Json.dumps_dict depth d) = true.
Proof.
  unfold Json.dumps_dict. destruct d as [|kv d]; [reflexivity|].
  rewrite !plain_text_append, spaces_plain, dump_items_plain; [reflexivity|].
  apply List.Forall_forall. intros x Hx. apply in_map_iff in Hx as (y & <- & _).
  now rewrite !plain_text_append, !dumps_str_plain.
Qed.

Lemma dumps_plain (doc : list (list (string * string))) :
  plain_text (Json.dumps doc) = true.
Proof.
  unfold Json.dumps. destruct doc as [|d doc]; [reflexivity|].
  rewrite !plain_text_append, dump_items_plain; [reflexivity|].
  apply List.Forall_forall. intros x Hx. apply in_map_iff in Hx as (y & <- & _).
  apply dumps_dict_plain.
Qed.

Example escape_beyond_ascii :
  Json.escape (String "233" (String "010" "x"))
  = Json.backslash ++ "u00e9" ++ Json.backslash ++ "nx".
Proof. reflexivity. Qed.

(** X17. When both deployments fail, each with an exception, the second is
    still run in the world the first left, the result list is empty, and no
    file has been touched. *)
Theorem both_deployments_fail `{P : Platform} (environ : gmap string string)
    (session : Session) (llm_version embed_version : string)
    (s : state) (w1 w2 : World) :
  deployment_fails (EXECUTION_ROLE environ) session NEMOTRON_MODEL_ID llm_version
    (LLM_INSTANCE environ) "mindbridge-llm" (world s) w1 ->
  deployment_fails (EXECUTION_ROLE environ) session EMBED_MODEL_ID embed_version
    (EMBED_INSTANCE environ) "mindbridge-embed" w1 w2 ->
  exists s',
    main_deploy environ session llm_version embed_version s = (Returned [], s')
    /\ world s' = w2
    /\ files s' = files s
    /\ attempted NEMOTRON_MODEL_ID s'
    /\ attempted EMBED_MODEL_ID s'.
Proof.
  intros H1 H2.
  apply deploy_model_fails in H1 as (s1 & E1 & Hw1 & Hf1).
  rewrite <- Hw1 in H2.
  apply deploy_model_fails in H2 as (s2 & E2 & Hw2 & Hf2).
  exists s2. unfold main_deploy, bind. rewrite E1, E2. cbn.
  repeat split; try congruence.
  - destruct (deploy_model_first_call environ session EMBED_MODEL_ID embed_version
                (EMBED_INSTANCE environ) "mindbridge-embed" s1) as (rest & Hc).
    rewrite E2 in Hc. cbn [snd] in Hc.
    eapply attempted_later; [eapply deploy_model_attempted, E1 | exact Hc].
  - eapply deploy_model_attempted, E2.
Qed.

Lemma both_deployments_fail_witness :
  fst (@main_deploy (Stub.platform Stub.cleanup_fails) ∅ "us-east-1" "1.0.0" "1.0.0"
         (Stub.start Stub.cleanup_fails ∅))
  = Returned [].
Proof.
  destruct (@both_deployments_fail (Stub.platform Stub.cleanup_fails) ∅ "us-east-1"
              "1.0.0" "1.0.0" (Stub.start Stub.cleanup_fails ∅)
              [Stub.llm_name] [Stub.llm_name; Stub.embed_name])
    as (s' & Hm & _).
  - exists DeleteModelStep, Stub.timed_out. split; vm_compute; reflexivity.
  - exists DeleteModelStep, Stub.timed_out. split; vm_compute; reflexivity.
  - now rewrite Hm.
Defined.

(** ** Reading back what [Json.dumps] wrote *)

Section ReadBack.

Import JsonRead.

















End ReadBack.

(** ** The summary file, written or not *)



(** A working directory spelt with a doubled separator names the same file:
    the stale summary is replaced, not kept beside a new one. *)
Example summary_path_spelt_otherwise :
  let f := Stub.no_faults in
  let s' := snd (@main (Stub.platform f) ∅ "/work//"
                   (Stub.start f {["/work/nim_endpoints.json" := "stale"]})) in
  map fst (map_to_list (files s')) = ["/work/nim_endpoints.json"]
  /\ files s' !! "/work/nim_endpoints.json" <> Some "stale".
Proof. vm_compute. split; [reflexivity | discriminate]. Qed.

(** X18. When at least one deployment has succeeded and the summary cannot
    be opened for writing, [main] ends with the fault [open] raised: no file
    is changed, the line announcing the summary is not printed, and the
    status is not 0.  When it can be opened and the writing raises, [main]
    ends with that fault and the file holds the part of the text that had
    been written. *)
Theorem summary_write_fault `{P : Platform} (environ : gmap string string)
    (cwd : string) (s s1 : state) (endpoints : list EndpointInfo) :
  main_endpoints environ s = (Returned endpoints, s1) ->
  endpoints <> [] ->
  (forall e,
     os_open_w (Os.path_join cwd "nim_endpoints.json") (world s1) = Some e ->
     main environ cwd s = (Raised e, s1)
     /\ files s1 = files s
     /\ fst (run environ cwd s) <> 0)
  /\ (forall e n,
        os_open_w (Os.path_join cwd "nim_endpoints.json") (world s1) = None ->
        os_write (Os.path_join cwd "nim_endpoints.json")
          (Json.dumps (map instance_dict endpoints)) (world s1) = Some (e, n) ->
        exists s',
          main environ cwd s = (Raised e, s')
          /\ stdout s' = stdout s1
          /\ files s' =
               <[os_realpath (Os.path_join cwd "nim_endpoints.json") (world s1) :=
                   PyStr.slice_to n (Json.dumps (map instance_dict endpoints))]> (files s)
          /\ fst (run environ cwd s) <> 0).
Proof.
  intros E Hne. split.
  - intros e Hopen.
    assert (Hm : main environ cwd s = (Raised e, s1)).
    { unfold main, bind.
      now rewrite E, (main_summary_outcome cwd endpoints s1 Hne), Hopen. }
    repeat split; [exact Hm | apply (main_endpoints_files environ s _ _ E) |].
    unfold run. rewrite Hm. cbn. destruct (isinstance_Exception e); discriminate.
  - intros e n Hopen Hwrite.
    assert (Hm : main environ cwd s
                 = (Raised e,
                    {| world := world s1; calls := calls s1; stdout := stdout s1;
                       files :=
                         <[os_realpath (Os.path_join cwd "nim_endpoints.json") (world s1) :=
                             PyStr.slice_to n (Json.dumps (map instance_dict endpoints))]>
                           (files s1) |})).
    { unfold main, bind.
      now rewrite E, (main_summary_outcome cwd endpoints s1 Hne), Hopen, Hwrite. }
    eexists. split; [exact Hm|]. cbn [stdout files].
    rewrite (main_endpoints_files environ s _ _ E). repeat split.
    unfold run. rewrite Hm. cbn. destruct (isinstance_Exception e); discriminate.
Qed.

Lemma summary_write_fault_witness :
  let r := @run (Stub.platform Stub.no_faults) ∅ "/readonly"
             (Stub.start Stub.no_faults ∅) in
  fst r = 1 /\ files (snd r) = ∅ /\ world (snd r) = [Stub.llm_name; Stub.embed_name].
Proof.
  cbv zeta.
  destruct (@summary_write_fault (Stub.platform Stub.no_faults) ∅ "/readonly"
              (Stub.start Stub.no_faults ∅)
              (snd (@main_endpoints (Stub.platform Stub.no_faults) ∅
                      (Stub.start Stub.no_faults ∅)))
              [endpoint_record (P := Stub.platform Stub.no_faults) "us-east-1"
                 "nvidia-nemotron-nano-8b-nim" "1.0.0" "ml.g5.2xlarge" "mindbridge-llm";
               endpoint_record (P := Stub.platform Stub.no_faults) "us-east-1"
                 "nvidia-llama3-2-nv-embedqa-1b-v2-nim" "1.0.0" "ml.g5.xlarge"
                 "mindbridge-embed"])
    as (Hopen & _).
  - vm_compute. reflexivity.
  - discriminate.
  - destruct (Hopen Stub.permission_denied eq_refl) as (Hm & _ & _).
    unfold run. rewrite Hm. vm_compute. repeat split.
Defined.

(** ** The configuration reaches the platform *)

Ltac in_log :=
  rewrite <- ?app_assoc; cbn [app]; apply in_or_app; right; cbn [In]; tauto.

Lemma hands_over_later `{P : Platform} (role instance_type : string) (sess : Session)
    (model_id model_version endpoint_prefix : string) (w : World)
    (log later : list call) :
  hands_over role instance_type sess model_id model_version endpoint_prefix w log ->
  hands_over role instance_type sess model_id model_version endpoint_prefix w
    (log ++ later)%list.
Proof.
  intros H uri w1 img w2 H1 H2. destruct (H uri w1 img w2 H1 H2) as (Hm & Hd).
  split; [apply in_or_app; now left|].
  intros m w3 H3. apply in_or_app. left. eapply Hd, H3.
Qed.

(** One deployment hands role, instance type and endpoint name to the
    platform as soon as its steps get that far. *)
Lemma deploy_model_hands_over `{P : Platform} (environ : gmap string string)
    (sess : Session) (model_id model_version instance_type endpoint_prefix : string)
    (s : state) :
  hands_over (EXECUTION_ROLE environ) instance_type sess model_id model_version
    endpoint_prefix (world s)
    (calls (snd (deploy_model environ sess model_id model_version instance_type
                   endpoint_prefix s))).
Proof.
  intros uri w1 img w2 H1 H2.
  unfold deploy_model, bind, try_except, invoke, print, ret, raise. cbn.
  rewrite H1; cbn. rewrite H2; cbn. split.
  - sdk_cases; exc_cases; in_log.
  - intros m w3 H3. rewrite H3; cbn. sdk_cases; exc_cases; in_log.
Qed.

(** In a run that has its session and versions, both deployments do. *)
Lemma main_hands_over `{P : Platform} (environ : gmap string string) (cwd : string)
    (s : state) (session : Session) (llm_specs embed_specs : Specs) (w0 w1 w2 : World) :
  sdk_Session (world s) = (Returned session, w0) ->
  sdk_get_model_specs NEMOTRON_MODEL_ID (boto_region_name session) w0
    = (Returned llm_specs, w1) ->
  sdk_get_model_specs EMBED_MODEL_ID (boto_region_name session) w1
    = (Returned embed_specs, w2) ->
  hands_over (EXECUTION_ROLE environ) (LLM_INSTANCE environ) session NEMOTRON_MODEL_ID
    (specs_model_version llm_specs) "mindbridge-llm" w2
    (calls (snd (main environ cwd s)))
  /\ (forall wl,
        deployment_fails (EXECUTION_ROLE environ) session NEMOTRON_MODEL_ID
          (specs_model_version llm_specs) (LLM_INSTANCE environ) "mindbridge-llm" w2 wl
        \/ deployment_succeeds (EXECUTION_ROLE environ) session NEMOTRON_MODEL_ID
             (specs_model_version llm_specs) (LLM_INSTANCE environ) "mindbridge-llm" w2 wl ->
        hands_over (EXECUTION_ROLE environ) (EMBED_INSTANCE environ) session
          EMBED_MODEL_ID (specs_model_version embed_specs) "mindbridge-embed" wl
          (calls (snd (main environ cwd s)))).
Proof.
  intros Hs H1 H2.
  remember (calls (snd (main environ cwd s))) as log eqn:Hlog. revert Hlog.
  unfold main. unfold bind at 1.
  rewrite (main_endpoints_resolved environ s session llm_specs embed_specs
             w0 w1 w2 Hs H1 H2).
  unfold main_deploy, bind.
  match goal with
  | |- context [deploy_model ?a ?b ?c ?d ?f ?g ?st] =>
      pose proof (deploy_model_hands_over a b c d f g st) as Hllm;
      pose proof (fun w' => deploy_model_fails a b c d f g st w') as Hfail;
      pose proof (fun w' => deploy_model_succeeds a b c d f g st w') as Hsucc;
      destruct (deploy_model a b c d f g st) as [[r1|e1] s1]
  end; cbn [snd world] in Hllm, Hfail, Hsucc.
  2:{ cbn [snd]. intros ->. split; [exact Hllm|].
      intros wl [Hd | Hd];
        [apply Hfail in Hd as (s' & Hd & _) | apply Hsucc in Hd as (s' & Hd & _)];
        discriminate Hd. }
  assert (Hw1 : forall wl,
             deployment_fails (EXECUTION_ROLE environ) session NEMOTRON_MODEL_ID
               (specs_model_version llm_specs) (LLM_INSTANCE environ) "mindbridge-llm" w2 wl
             \/ deployment_succeeds (EXECUTION_ROLE environ) session NEMOTRON_MODEL_ID
                  (specs_model_version llm_specs) (LLM_INSTANCE environ) "mindbridge-llm"
                  w2 wl ->
             world s1 = wl).
  { intros wl [Hd | Hd];
      [apply Hfail in Hd as (s' & Hd & Hw & _) | apply Hsucc in Hd as (s' & Hd & Hw & _)];
      injection Hd as _ <-; exact Hw. }
  clear Hfail Hsucc.
  match goal with
  | |- context [deploy_model ?a ?b ?c ?d ?f ?g ?st] =>
      pose proof (deploy_model_hands_over a b c d f g st) as Hembed;
      destruct (deploy_model_first_call a b c d f g st) as (rest & Hc);
      destruct (deploy_model a b c d f g st) as [[r2|e2] s2]
  end; cbn [snd] in Hembed, Hc.
  - unfold ret.
    match goal with
    | |- context [main_summary ?c ?l ?st] =>
        destruct (main_summary c l st) as [r3 s3] eqn:E3;
        apply main_summary_keeps in E3 as (E3 & _)
    end.
    cbn [snd]. rewrite E3. intros ->. split.
    + rewrite Hc. now apply hands_over_later.
    + intros wl Hd. rewrite <- (Hw1 wl Hd). exact Hembed.
  - cbn [snd]. intros ->. split.
    + rewrite Hc. now apply hands_over_later.
    + intros wl Hd. rewrite <- (Hw1 wl Hd). exact Hembed.
Qed.

(** C9. The instance types and the role are read from the environment, each
    the value of its variable when that is set, and the role the default
    written in the source when [SAGEMAKER_EXECUTION_ROLE] is unset.  They reach
    the platform: in a run that has its session and versions, each deployment
    that gets as far constructs its model with [EXECUTION_ROLE] and asks for
    its endpoint with its own instance type ([LLM_INSTANCE] for the reasoning
    model, [EMBED_INSTANCE] for the embedding model); and no call of any run
    carries another role, or another instance type for its endpoint. *)
Theorem configuration_from_environment `{P : Platform} (environ : gmap string string)
    (cwd : string) (s s' : state) (r : outcome unit) :
  main environ cwd s = (r, s') ->
  (forall v, environ !! "NIM_LLM_INSTANCE_TYPE" = Some v -> LLM_INSTANCE environ = v)
  /\ (forall v, environ !! "NIM_EMBED_INSTANCE_TYPE" = Some v -> EMBED_INSTANCE environ = v)
  /\ (forall v, environ !! "SAGEMAKER_EXECUTION_ROLE" = Some v -> EXECUTION_ROLE environ = v)
  /\ (environ !! "SAGEMAKER_EXECUTION_ROLE" = None ->
      EXECUTION_ROLE environ = DEFAULT_EXECUTION_ROLE)
  /\ extends_calls (made_by_main environ) s s'
  /\ (forall session llm_specs embed_specs w0 w1 w2,
        sdk_Session (world s) = (Returned session, w0) ->
        sdk_get_model_specs NEMOTRON_MODEL_ID (boto_region_name session) w0
          = (Returned llm_specs, w1) ->
        sdk_get_model_specs EMBED_MODEL_ID (boto_region_name session) w1
          = (Returned embed_specs, w2) ->
        hands_over (EXECUTION_ROLE environ) (LLM_INSTANCE environ) session
          NEMOTRON_MODEL_ID (specs_model_version llm_specs) "mindbridge-llm" w2 (calls s')
        /\ (forall wl,
              deployment_fails (EXECUTION_ROLE environ) session NEMOTRON_MODEL_ID
                (specs_model_version llm_specs) (LLM_INSTANCE environ)
                "mindbridge-llm" w2 wl
              \/ deployment_succeeds (EXECUTION_ROLE environ) session NEMOTRON_MODEL_ID
                   (specs_model_version llm_specs) (LLM_INSTANCE environ)
                   "mindbridge-llm" w2 wl ->
              hands_over (EXECUTION_ROLE environ) (EMBED_INSTANCE environ) session
                EMBED_MODEL_ID (specs_model_version embed_specs) "mindbridge-embed" wl
                (calls s'))).
Proof.
  intros H. split; [|split; [|split; [|split; [|split]]]].
  - intros v Hv. unfold LLM_INSTANCE, Os.getenv. now rewrite Hv.
  - intros v Hv. unfold EMBED_INSTANCE, Os.getenv. now rewrite Hv.
  - intros v Hv. unfold EXECUTION_ROLE, Os.getenv. now rewrite Hv.
  - intros Hv. unfold EXECUTION_ROLE, Os.getenv. now rewrite Hv.
  - apply (main_calls environ cwd s r s' H).
  - intros session llm_specs embed_specs w0 w1 w2 Hs H1 H2.
    replace s' with (snd (main environ cwd s)) by now rewrite H.
    exact (main_hands_over environ cwd s session llm_specs embed_specs w0 w1 w2
             Hs H1 H2).
Qed.

Lemma configuration_from_environment_witness :
  let environ : gmap string string := {["NIM_LLM_INSTANCE_TYPE" := "ml.g5.12xlarge"]} in
  let s' := snd (@main (Stub.platform Stub.no_faults) environ "/work"
                   (Stub.start Stub.no_faults ∅)) in
  In (@CallModel (Stub.platform Stub.no_faults)
        "ecr/nvidia-nemotron-nano-8b-nim" "s3://models/nvidia-nemotron-nano-8b-nim"
        "arn:aws:iam::112571254920:role/voclabs" "us-east-1") (calls s')
  /\ In (@CallDeploy (Stub.platform Stub.no_faults)
           ("ecr/nvidia-nemotron-nano-8b-nim", "s3://models/nvidia-nemotron-nano-8b-nim")
           1 "ml.g5.12xlarge" Stub.llm_name true) (calls s')
  /\ In (@CallDeploy (Stub.platform Stub.no_faults)
           ("ecr/nvidia-llama3-2-nv-embedqa-1b-v2-nim",
            "s3://models/nvidia-llama3-2-nv-embedqa-1b-v2-nim")
           1 "ml.g5.xlarge" Stub.embed_name true) (calls s').
Proof.
  cbv zeta.
  destruct (@configuration_from_environment (Stub.platform Stub.no_faults)
              {["NIM_LLM_INSTANCE_TYPE" := "ml.g5.12xlarge"]} "/work"
              (Stub.start Stub.no_faults ∅) _ _ (surjective_pairing _))
    as (_ & _ & _ & _ & _ & H).
  destruct (H "us-east-1" "1.0.0" "1.0.0" [] [] [] eq_refl eq_refl eq_refl)
    as (Hllm & Hembed).
  destruct (Hllm "s3://models/nvidia-nemotron-nano-8b-nim" []
              "ecr/nvidia-nemotron-nano-8b-nim" [] eq_refl eq_refl) as (Hm & Hd).
  split; [exact Hm|]. split.
  - exact (Hd ("ecr/nvidia-nemotron-nano-8b-nim", "s3://models/nvidia-nemotron-nano-8b-nim")
             [] eq_refl).
  - assert (He : hands_over (P := Stub.platform Stub.no_faults)
                   "arn:aws:iam::112571254920:role/voclabs" "ml.g5.xlarge" "us-east-1"
                   "nvidia-llama3-2-nv-embedqa-1b-v2-nim" "1.0.0" "mindbridge-embed"
                   [Stub.llm_name]
                   (calls (snd (@main (Stub.platform Stub.no_faults)
                                  {["NIM_LLM_INSTANCE_TYPE" := "ml.g5.12xlarge"]} "/work"
                                  (Stub.start Stub.no_faults ∅))))).
    { apply (Hembed [Stub.llm_name]). right. exists Stub.llm_name.
      vm_compute. reflexivity. }
    destruct (He "s3://models/nvidia-llama3-2-nv-embedqa-1b-v2-nim" [Stub.llm_name]
                "ecr/nvidia-llama3-2-nv-embedqa-1b-v2-nim" [Stub.llm_name]
                eq_refl eq_refl) as (_ & Hd').
    exact (Hd' ("ecr/nvidia-llama3-2-nv-embedqa-1b-v2-nim",
                "s3://models/nvidia-llama3-2-nv-embedqa-1b-v2-nim") _ eq_refl).
Defined.

(** ** Runs that reach the summary *)



(** X13. After a run with at least one success in which the summary could be
    opened and written, the console ends with the line announcing the summary
    and then one line per record, in the order of the result list, each
    giving model id, version, endpoint name and invocation URL. *)
Theorem summary_lines_printed `{P : Platform} (environ : gmap string string)
    (cwd : string) (s s1 : state) (endpoints : list EndpointInfo) :
  main_endpoints environ s = (Returned endpoints, s1) ->
  endpoints <> [] ->
  os_open_w (Os.path_join cwd "nim_endpoints.json") (world s1) = None ->
  os_write (Os.path_join cwd "nim_endpoints.json")
    (Json.dumps (map instance_dict endpoints)) (world s1) = None ->
  stdout (snd (main environ cwd s))
  = (stdout s1 ++ written_line :: map summary_line endpoints)%list.
Proof.
  intros E Hne Hopen Hwrite. unfold main, bind.
  now rewrite E, (main_summary_outcome cwd endpoints s1 Hne), Hopen, Hwrite.
Qed.

Lemma summary_lines_printed_witness :
  List.last
    (stdout (snd (@main (Stub.platform Stub.embed_deploy_fails) ∅ "/work"
                    (Stub.start Stub.embed_deploy_fails ∅)))) ""
  = summary_line
      (endpoint_record (P := Stub.platform Stub.embed_deploy_fails) "us-east-1"
         "nvidia-nemotron-nano-8b-nim" "1.0.0" "ml.g5.2xlarge" "mindbridge-llm").
Proof.
  rewrite (@summary_lines_printed (Stub.platform Stub.embed_deploy_fails) ∅ "/work"
             (Stub.start Stub.embed_deploy_fails ∅)
             (snd (@main_endpoints (Stub.platform Stub.embed_deploy_fails) ∅
                     (Stub.start Stub.embed_deploy_fails ∅)))
             [endpoint_record (P := Stub.platform Stub.embed_deploy_fails) "us-east-1"
                "nvidia-nemotron-nano-8b-nim" "1.0.0" "ml.g5.2xlarge" "mindbridge-llm"]).
  - vm_compute. reflexivity.
  - vm_compute. reflexivity.
  - discriminate.
  - reflexivity.
  - reflexivity.
Defined.

(** X16. When a run writes the summary, the file is plain ASCII: the region
    and the versions being text of code points below 256, whatever those are,
    the file consists of printable ASCII characters and line feeds only. *)
Theorem summary_is_plain_ascii `{P : Platform} (environ : gmap string string)
    (cwd : string) (s s1 : state) (endpoints : list EndpointInfo) :
  main_endpoints environ s = (Returned endpoints, s1) ->
  endpoints <> [] ->
  os_open_w (Os.path_join cwd "nim_endpoints.json") (world s1) = None ->
  os_write (Os.path_join cwd "nim_endpoints.json")
    (Json.dumps (map instance_dict endpoints)) (world s1) = None ->
  exists text,
    files (snd (main environ cwd s))
      !! os_realpath (Os.path_join cwd "nim_endpoints.json") (world s1) = Some text
    /\ plain_text text = true.
Proof.
  intros E Hne Hopen Hwrite. unfold main, bind.
  rewrite E, (main_summary_outcome cwd endpoints s1 Hne), Hopen, Hwrite.
  cbn [snd files].
  eexists. split; [apply lookup_insert_eq | apply dumps_plain].
Qed.

Lemma summary_is_plain_ascii_witness :
  exists text,
    files (snd (@main (Stub.platform Stub.embed_deploy_fails) ∅ "/work"
                  (Stub.start Stub.embed_deploy_fails ∅)))
      !! "/work/nim_endpoints.json" = Some text
    /\ plain_text text = true.
Proof.
  apply (@summary_is_plain_ascii (Stub.platform Stub.embed_deploy_fails) ∅ "/work"
           (Stub.start Stub.embed_deploy_fails ∅)
           (snd (@main_endpoints (Stub.platform Stub.embed_deploy_fails) ∅
                   (Stub.start Stub.embed_deploy_fails ∅)))
           [endpoint_record (P := Stub.platform Stub.embed_deploy_fails) "us-east-1"
              "nvidia-nemotron-nano-8b-nim" "1.0.0" "ml.g5.2xlarge" "mindbridge-llm"]).
  - vm_compute. reflexivity.
  - discriminate.
  - reflexivity.
  - reflexivity.
Defined.

(** ** The order of the platform calls *)

Ltac by_position :=
  let k := fresh "k" in
  let c := fresh "c" in
  let H := fresh "H" in
  intros k c H;
  do 6 (try (destruct k as [|k]; cbn in H;
             [try discriminate H; injection H as <-; cbn; repeat split|]));
  try discriminate H;
  try (destruct k; discriminate H).

(** The calls of one [deploy_model]: at least one, each in its position. *)
Lemma deploy_model_calls_sequence `{P : Platform} (environ : gmap string string)
    (sess : Session) (model_id model_version instance_type endpoint_prefix : string)
    (s : state) :
  exists new,
    calls (snd (deploy_model environ sess model_id model_version instance_type
                  endpoint_prefix s)) = (calls s ++ new)%list
    /\ new <> []
    /\ in_deploy_sequence (EXECUTION_ROLE environ) sess model_id model_version
         instance_type endpoint_prefix new.
Proof.
  unfold deploy_model, bind, try_except, invoke, print, ret, raise.
  cbn. sdk_cases; exc_cases.
  all: eexists; split; [rewrite <- ?app_assoc; cbn [app]; reflexivity|].
  all: split; [discriminate|].
  all: unfold in_deploy_sequence; by_position.
Qed.

(** X15. The platform calls of a run come in a fixed order: the session;
    then the version look-ups, the reasoning model's before the embedding
    model's; then the calls of the reasoning model's deployment, each in its
    position of the [try] block; then those of the embedding model's, likewise.
    A later group is there only if the earlier ones are, the look-ups both. *)
Theorem main_calls_in_order `{P : Platform} (environ : gmap string string)
    (cwd : string) (s s' : state) (r : outcome unit) :
  main environ cwd s = (r, s') ->
  exists specs llm embed,
    calls s' = (calls s ++ CallSession :: specs ++ llm ++ embed)%list
    /\ (exists region,
          specs = firstn (List.length specs)
                    [CallGetModelSpecs NEMOTRON_MODEL_ID region;
                     CallGetModelSpecs EMBED_MODEL_ID region])
    /\ (llm = [] \/
        List.length specs = 2 /\
        exists sess version,
          in_deploy_sequence (EXECUTION_ROLE environ) sess NEMOTRON_MODEL_ID version
            (LLM_INSTANCE environ) "mindbridge-llm" llm)
    /\ (embed = [] \/
        llm <> [] /\
        exists sess version,
          in_deploy_sequence (EXECUTION_ROLE environ) sess EMBED_MODEL_ID version
            (EMBED_INSTANCE environ) "mindbridge-embed" embed).
Proof.
  intros H.
  assert (Hc : calls s' = calls (snd (main environ cwd s))) by now rewrite H.
  rewrite Hc. clear H Hc r s'.
  destruct (sdk_Session (world s)) as [[session|e] w0] eqn:Hs.
  2:{ exists [], [], []. unfold main, main_endpoints, bind, invoke. rewrite Hs.
      cbn. repeat split; auto; now exists "". }
  destruct (sdk_get_model_specs NEMOTRON_MODEL_ID (boto_region_name session) w0)
    as [[llm_specs|e] w1] eqn:H1.
  2:{ exists [CallGetModelSpecs NEMOTRON_MODEL_ID (boto_region_name session)], [], [].
      unfold main. unfold bind at 1.
      rewrite (main_endpoints_banner environ s session w0 Hs).
      unfold main_resolve, resolve_model_version, bind, invoke, print, ret.
      cbn [world calls stdout files]. rewrite H1. cbn.
      rewrite <- app_assoc. repeat split; auto;
        now exists (boto_region_name session). }
  destruct (sdk_get_model_specs EMBED_MODEL_ID (boto_region_name session) w1)
    as [[embed_specs|e] w2] eqn:H2.
  2:{ exists [CallGetModelSpecs NEMOTRON_MODEL_ID (boto_region_name session);
              CallGetModelSpecs EMBED_MODEL_ID (boto_region_name session)], [], [].
      unfold main. unfold bind at 1.
      rewrite (main_endpoints_banner environ s session w0 Hs).
      unfold main_resolve, resolve_model_version, bind, invoke, print, ret.
      cbn [world calls stdout files]. rewrite H1. cbn. rewrite H2. cbn.
      rewrite <- !app_assoc. repeat split; auto;
        now exists (boto_region_name session). }
  exists [CallGetModelSpecs NEMOTRON_MODEL_ID (boto_region_name session);
          CallGetModelSpecs EMBED_MODEL_ID (boto_region_name session)].
  unfold main. unfold bind at 1.
  rewrite (main_endpoints_resolved environ s session llm_specs embed_specs
             w0 w1 w2 Hs H1 H2).
  unfold main_deploy, bind.
  match goal with
  | |- context [deploy_model ?a ?b ?c ?d ?f ?g ?st] =>
      destruct (deploy_model_calls_sequence a b c d f g st) as (new1 & Hc1 & Hn1 & Hq1);
      destruct (deploy_model a b c d f g st) as [[r1|e1] s1]
  end; cbn [snd calls] in Hc1.
  2:{ exists new1, []. cbn [snd]. rewrite Hc1, <- !app_assoc, app_nil_r.
      split; [reflexivity|]. split; [now exists (boto_region_name session)|].
      split; [right; split; [reflexivity | eauto] | now left]. }
  match goal with
  | |- context [deploy_model ?a ?b ?c ?d ?f ?g ?st] =>
      destruct (deploy_model_calls_sequence a b c d f g st) as (new2 & Hc2 & Hn2 & Hq2);
      destruct (deploy_model a b c d f g st) as [[r2|e2] s2]
  end; cbn [snd calls] in Hc2.
  2:{ exists new1, new2. cbn [snd]. rewrite Hc2, Hc1, <- !app_assoc.
      split; [reflexivity|]. split; [now exists (boto_region_name session)|].
      split; right; split; eauto. }
  exists new1, new2. unfold ret.
  match goal with
  | |- context [main_summary ?c ?l ?st] =>
      destruct (main_summary c l st) as [r3 s3] eqn:E3;
      apply main_summary_keeps in E3 as (E3 & _)
  end.
  cbn [snd]. rewrite E3, Hc2, Hc1, <- !app_assoc.
  split; [reflexivity|]. split; [now exists (boto_region_name session)|].
  split; right; split; eauto.
Qed.

Lemma main_calls_in_order_witness :
  let f := Stub.llm_uri_fails in
  let s0 := Stub.start f ∅ in
  exists specs llm embed,
    calls (snd (@main (Stub.platform f) ∅ "/work" s0))
    = (calls s0 ++ CallSession :: specs ++ llm ++ embed)%list
    /\ (exists region,
          specs = firstn (List.length specs)
                    [@CallGetModelSpecs (Stub.platform f) NEMOTRON_MODEL_ID region;
                     CallGetModelSpecs EMBED_MODEL_ID region])
    /\ (llm = [] \/
        List.length specs = 2 /\
        exists sess version,
          in_deploy_sequence (P := Stub.platform f) (EXECUTION_ROLE ∅) sess
            NEMOTRON_MODEL_ID version (LLM_INSTANCE ∅) "mindbridge-llm" llm)
    /\ (embed = [] \/
        llm <> [] /\
        exists sess version,
          in_deploy_sequence (P := Stub.platform f) (EXECUTION_ROLE ∅) sess
            EMBED_MODEL_ID version (EMBED_INSTANCE ∅) "mindbridge-embed" embed).
Proof.
  cbv zeta.
  exact (@main_calls_in_order (Stub.platform Stub.llm_uri_fails) ∅ "/work"
           (Stub.start Stub.llm_uri_fails ∅) _ _ (surjective_pairing _)).
Defined.
